(** * Streets: the loader pipeline and the search / delete handlers

    A shallow embedding of the loader utilities of [src/loadUtils.ts]
    (the field schema, value coercion, the row-to-document mapper, index
    provisioning, the bulk loader and the whole run) and of the API server
    (the query builder and the search and delete handlers), with the
    properties the specification states about them and further ones that
    the code shows.

    JavaScript data is modelled as the engine has it: strings are sequences
    of UTF-16 code units, numbers are binary64 values, objects used as
    dictionaries are finite maps.  The calls the code makes on the
    Elasticsearch client are calls on a client record that threads an
    arbitrary backend state and may throw. *)

From Stdlib Require Import ZArith List String Ascii Bool Lia.
From Stdlib Require Import Floats.SpecFloat.
From stdpp Require Import base option list gmap.

Local Open Scope Z_scope.
Set Warnings "-register-all".

(* ================================================================== *)
(** * JavaScript strings *)
(* ================================================================== *)

Module JsStr.

(** A string is a sequence of UTF-16 code units. *)
Abbreviation JsString := (list N).

(** The code units of a Basic Latin literal. *)
Definition js (s : string) : JsString :=
  List.map N_of_ascii (list_ascii_of_string s).

(** [WhiteSpace] of ECMA-262: TAB, VT, FF, ZWNBSP and the space
    separators (category Zs). *)
Definition isWhiteSpace (c : N) : bool :=
  ((c =? 0x9) || (c =? 0xB) || (c =? 0xC) || (c =? 0xFEFF)
   || (c =? 0x20) || (c =? 0xA0) || (c =? 0x1680)
   || ((0x2000 <=? c) && (c <=? 0x200A))
   || (c =? 0x202F) || (c =? 0x205F) || (c =? 0x3000))%N.

(** [LineTerminator] of ECMA-262: LF, CR, LS, PS. *)
Definition isLineTerminator (c : N) : bool :=
  ((c =? 0xA) || (c =? 0xD) || (c =? 0x2028) || (c =? 0x2029))%N.

(** The code units that [String.prototype.trim] removes and that
    [StringToNumber] skips ([StrWhiteSpaceChar]). *)
Definition isStrWhiteSpaceChar (c : N) : bool :=
  isWhiteSpace c || isLineTerminator c.

Fixpoint trimStart (s : JsString) : JsString :=
  match s with
  | c :: s' => if isStrWhiteSpaceChar c then trimStart s' else s
  | [] => []
  end.

Definition trimEnd (s : JsString) : JsString :=
  rev (trimStart (rev s)).

(** [String.prototype.trim]. *)
Definition trim (s : JsString) : JsString := trimEnd (trimStart s).

(** [a === b] on strings. *)
Definition streq (a b : JsString) : bool := bool_decide (a = b).

(** Truthiness of a string: the empty string is the only falsy one. *)
Definition truthy (s : JsString) : bool :=
  match s with [] => false | _ => true end.

(** A string made of white space only (the empty string included). *)
Definition blank (s : JsString) : Prop :=
  Forall (fun c => isStrWhiteSpaceChar c = true) s.

End JsStr.
Export JsStr.

(* ================================================================== *)
(** * JavaScript numbers *)
(* ================================================================== *)

Module JsNum.

(** A Number is a binary64 value: 53 bits of precision, exponents below
    1024.  [S754_finite s m e] is [(-1)^s * m * 2^e]. *)
Abbreviation Number := spec_float.

Definition prec : Z := 53.
Definition emax : Z := 1024.

Definition NaN : Number := S754_nan.
Definition posZero : Number := S754_zero false.
Definition Infinity (neg : bool) : Number := S754_infinity neg.

(** The Number nearest to the integer [z] (ties to even). *)
Definition ofZ (z : Z) : Number := binary_normalize prec emax z 0 false.

(** The Number nearest to [(-1)^neg * m * 10^e], for [m >= 0]: the rounded
    mathematical value of a decimal literal.  A zero keeps the sign of the
    literal. *)
Definition roundDecimal (neg : bool) (m e : Z) : Number :=
  if m =? 0 then S754_zero neg
  else if 0 <=? e then binary_normalize prec emax (cond_Zopp neg (m * 10 ^ e)) 0 neg
  else
    let '(q, e', l) := SFdiv_core_binary prec emax m 0 (10 ^ (- e)) 0 in
    binary_round_aux prec emax neg q e' l.

(** [Number.isInteger]: finite, and equal to its own truncation. *)
Definition isInteger (n : Number) : bool :=
  match n with
  | S754_zero _ => true
  | S754_finite _ m e =>
      if 0 <=? e then true else (Z.pos m) mod 2 ^ (- e) =? 0
  | S754_infinity _ | S754_nan => false
  end.

(** [n] is exactly the integer [z]. *)
Definition isZ (n : Number) (z : Z) : Prop :=
  match n with
  | S754_zero _ => z = 0
  | S754_finite s m e =>
      if 0 <=? e then z = cond_Zopp s (Z.pos m) * 2 ^ e
      else cond_Zopp s (Z.pos m) = z * 2 ^ (- e)
  | S754_infinity _ | S754_nan => False
  end.

(** ** [StringToNumber] (ECMA-262, 7.1.4.1.1) *)

Definition hexDigit (c : N) : option Z :=
  if ((48 <=? c) && (c <=? 57))%N then Some (Z.of_N (c - 48))
  else if ((97 <=? c) && (c <=? 102))%N then Some (Z.of_N (c - 87))
  else if ((65 <=? c) && (c <=? 70))%N then Some (Z.of_N (c - 55))
  else None.

Definition radixDigit (radix : Z) (c : N) : option Z :=
  match hexDigit c with
  | Some d => if d <? radix then Some d else None
  | None => None
  end.

(** Reads the longest prefix of digits of [s] in [radix]: the value read
    after [acc], how many digits were read, and what is left. *)
Fixpoint digits (radix : Z) (s : JsString) (acc : Z) (n : Z) : Z * Z * JsString :=
  match s with
  | c :: s' =>
      match radixDigit radix c with
      | Some d => digits radix s' (acc * radix + d) (n + 1)
      | None => (acc, n, s)
      end
  | [] => (acc, n, s)
  end.

(** [NonDecimalIntegerLiteral]: 0b, 0o or 0x and at least one digit, up to
    the end of the text. *)
Definition nonDecimal (s : JsString) : option Number :=
  match s with
  | 48%N :: p :: s' =>
      let radix :=
        if ((p =? 120) || (p =? 88))%N then Some 16
        else if ((p =? 111) || (p =? 79))%N then Some 8
        else if ((p =? 98) || (p =? 66))%N then Some 2
        else None in
      match radix with
      | Some r =>
          match digits r s' 0 0 with
          | (v, n, []) => if 0 <? n then Some (ofZ v) else None
          | _ => None
          end
      | None => None
      end
  | _ => None
  end.

(** An optional sign: whether it is a minus, and what follows. *)
Definition sign (s : JsString) : bool * JsString :=
  match s with
  | 43%N :: s' => (false, s')
  | 45%N :: s' => (true, s')
  | _ => (false, s)
  end.

(** [ExponentPart], when there is one: the exponent and what follows.
    [None] when an exponent indicator is not followed by digits. *)
Definition exponentPart (s : JsString) : option (Z * JsString) :=
  match s with
  | c :: s' =>
      if ((c =? 101) || (c =? 69))%N then
        let '(neg, s'') := sign s' in
        match digits 10 s'' 0 0 with
        | (v, n, rest) => if 0 <? n then Some (cond_Zopp neg v, rest) else None
        end
      else Some (0, s)
  | [] => Some (0, s)
  end.

(** [StrDecimalLiteral], up to the end of the text. *)
Definition strDecimalLiteral (s : JsString) : option Number :=
  let '(neg, u) := sign s in
  if streq u (js "Infinity") then Some (Infinity neg)
  else
    let '(ip, ni, r1) := digits 10 u 0 0 in
    let '(m, nf, r2) :=
      match r1 with
      | 46%N :: r => digits 10 r ip 0
      | _ => (ip, 0, r1)
      end in
    if (ni + nf =? 0) then None
    else
      match exponentPart r2 with
      | Some (ex, []) => Some (roundDecimal neg m (ex - nf))
      | _ => None
      end.

(** [StringToNumber]: white space around the literal is skipped, the
    empty text is [+0], and a text that is no [StringNumericLiteral] is
    [NaN]. *)
Definition StringToNumber (str : JsString) : Number :=
  match trim str with
  | [] => posZero
  | t =>
      match nonDecimal t with
      | Some n => n
      | None =>
          match strDecimalLiteral t with
          | Some n => n
          | None => NaN
          end
      end
  end.

(** ** [Number::toString] in radix 10 (ECMA-262, 6.1.6.1.20) *)

(** The decimal digits of [z >= 0], most significant first. *)
Fixpoint decimalFrom (fuel : nat) (z : Z) (acc : JsString) : JsString :=
  match fuel with
  | O => acc
  | S fuel' =>
      let acc' := Z.to_N (48 + z mod 10) :: acc in
      if z <? 10 then acc' else decimalFrom fuel' (z / 10) acc'
  end.

Definition decimal (z : Z) : JsString :=
  decimalFrom (S (Z.to_nat (Z.log2 z))) z [].

(** [num / den * 10^k], as a fraction. *)
Definition scale10 (num den k : Z) : Z * Z :=
  if 0 <=? k then (num * 10 ^ k, den) else (num, den * 10 ^ (- k)).

(** The [n] with [10^(n-1) <= num/den < 10^n]. *)
Definition decimalExponent (num den : Z) : Z :=
  let n := Z.of_nat (length (decimal num)) - Z.of_nat (length (decimal den)) in
  let '(a, b) := scale10 num den (- n) in
  if a <? b then n else n + 1.

(** The candidates with [k] digits for a positive [x = num/den] of decimal
    exponent [n]: [x] scaled to [k] digits and cut, and the next one up;
    whichever reads back as [x], the nearer of the two if both do. *)
Definition shortestAt (x : Number) (num den n k : Z) : option (Z * Z) :=
  let '(a, b) := scale10 num den (k - n) in
  let lo := a / b in
  let r := a mod b in
  let hi := if lo + 1 <? 10 ^ k then (lo + 1, n) else (10 ^ (k - 1), n + 1) in
  let back (c : Z * Z) := SFeqb x (roundDecimal false (fst c) (snd c - k)) in
  match back (lo, n), back hi with
  | true, true =>
      Some (match 2 * r ?= b with
            | Lt => (lo, n)
            | Gt => hi
            | Eq => if Z.even lo then (lo, n) else hi
            end)
  | true, false => Some (lo, n)
  | false, true => Some hi
  | false, false => None
  end.

(** The least number of digits [k], of those tried, that has a candidate. *)
Fixpoint shortest (x : Number) (num den n : Z) (tries : list Z) : Z * Z * Z :=
  match tries with
  | [] => let '(a, b) := scale10 num den (17 - n) in (17, a / b, n)
  | k :: rest =>
      match shortestAt x num den n k with
      | Some (s, n') => (k, s, n')
      | None => shortest x num den n rest
      end
  end.

Definition zeros (n : Z) : JsString := repeat 48%N (Z.to_nat n).

(** The text of a positive finite number, from its digits [s], their
    number [k] and the decimal exponent [n]. *)
Definition layout (k s n : Z) : JsString :=
  let ds := decimal s in
  if (k <=? n) && (n <=? 21) then ds ++ zeros (n - k)
  else if (0 <? n) && (n <=? 21) then
    firstn (Z.to_nat n) ds ++ js "." ++ skipn (Z.to_nat n) ds
  else if (-6 <? n) && (n <=? 0) then js "0." ++ zeros (- n) ++ ds
  else
    let e := n - 1 in
    let exponent := js (if e <? 0 then "e-" else "e+") ++ decimal (Z.abs e) in
    if k =? 1 then ds ++ exponent
    else firstn 1 ds ++ js "." ++ skipn 1 ds ++ exponent.

Definition numberToString (x : Number) : JsString :=
  match x with
  | S754_nan => js "NaN"
  | S754_zero _ => js "0"
  | S754_infinity neg => js (if neg then "-Infinity" else "Infinity")
  | S754_finite neg m e =>
      let '(num, den) :=
        if 0 <=? e then (Z.pos m * 2 ^ e, 1) else (Z.pos m, 2 ^ (- e)) in
      let '(k, s, n) :=
        shortest (S754_finite false m e) num den (decimalExponent num den)
          [1; 2; 3; 4; 5; 6; 7; 8; 9; 10; 11; 12; 13; 14; 15; 16; 17] in
      (if neg then js "-" else []) ++ layout k s n
  end.

End JsNum.
Export JsNum.

(* ================================================================== *)
(** * Values, completions and the engine's conversions *)
(* ================================================================== *)

(** The primitive values a raw cell can be.  [coerce] takes an [unknown];
    the cells of a sheet are strings, numbers, booleans or missing, and a
    symbol stands for the primitive values on which a conversion throws. *)
Inductive JsValue :=
  | VUndefined
  | VNull
  | VBool (b : bool)
  | VNum (n : Number)
  | VStr (s : JsString)
  | VSymbol (description : JsString).

(** The values of a parsed JSON text, and so of a document's fields. *)
Inductive Json :=
  | JNull
  | JBool (b : bool)
  | JNum (n : Number)
  | JStr (s : JsString)
  | JArr (items : list Json)
  | JObj (members : list (JsString * Json)).

(** A document: the own properties of an object, by name. *)
Abbreviation Doc := (gmap JsString Json).

(** What is thrown: an [Error] object with its name and message, or any
    other value. *)
Inductive Thrown :=
  | ErrorObject (name message : JsString)
  | ThrownValue (v : JsValue).

(** The outcome of evaluating an expression: a value, or a throw. *)
Inductive Completion (A : Type) :=
  | Normal (a : A)
  | Throw (e : Thrown).
Arguments Normal {A} a.
Arguments Throw {A} e.

Definition cbind {A B} (c : Completion A) (k : A -> Completion B) : Completion B :=
  match c with
  | Normal a => k a
  | Throw e => Throw e
  end.

Notation "'let!' x ':=' c 'in' k" := (cbind c (fun x => k))
  (at level 10, x name, c at level 100, k at level 200).

(** The two string operations of the engine that the code calls and whose
    results no property here depends on: [String.prototype.toLowerCase]
    (the Unicode case mapping) and [Number::toString] (the shortest decimal
    that reads back as the number). *)
Class Engine := {
  toLowerCase : JsString -> JsString;
  NumberToString : Number -> JsString
}.

Section Conversions.
Context `{Engine}.

(** [Number(v)] for a primitive [v]. *)
Definition ToNumber (v : JsValue) : Completion Number :=
  match v with
  | VUndefined => Normal NaN
  | VNull => Normal posZero
  | VBool true => Normal (ofZ 1)
  | VBool false => Normal posZero
  | VNum n => Normal n
  | VStr s => Normal (StringToNumber s)
  | VSymbol _ =>
      Throw (ErrorObject (js "TypeError") (js "Cannot convert a Symbol value to a number"))
  end.

(** [String(v)] for a primitive [v]. *)
Definition ToString (v : JsValue) : JsString :=
  match v with
  | VUndefined => js "undefined"
  | VNull => js "null"
  | VBool true => js "true"
  | VBool false => js "false"
  | VNum n => NumberToString n
  | VStr s => s
  | VSymbol d => js "Symbol(" ++ d ++ js ")"
  end.

End Conversions.

(* ================================================================== *)
(** * The loader: [coerce] and [rowToDoc] *)
(* ================================================================== *)

(** [type === name], where [type] is [undefined] for a field without an
    entry in [fieldTypes]. *)
Definition typeIs (type : option JsString) (name : string) : bool :=
  match type with
  | Some t => streq t (js name)
  | None => false
  end.

Section Loader.
Context `{Engine}.

(** [coerce(raw, type)]: the value to store, [None] for [undefined]. *)
Definition coerce (raw : JsValue) (type : option JsString) : Completion (option Json) :=
  match raw with
  | VUndefined | VNull => Normal None
  | _ =>
      if typeIs type "integer" || typeIs type "long" then
        let! n := ToNumber raw in
        Normal (if isInteger n then Some (JNum n) else None)
      else if typeIs type "boolean" then
        match raw with
        | VBool b => Normal (Some (JBool b))
        | _ =>
            let s := toLowerCase (ToString raw) in
            Normal (Some (JBool (streq s (js "true") || streq s (js "1") || streq s (js "yes"))))
        end
      else
        let str := trim (ToString raw) in
        if truthy str then Normal (Some (JStr str)) else Normal None
  end.

(** ** Objects used as dictionaries *)

(** The properties every object literal inherits from [Object.prototype]. *)
Definition objectPrototypeNames : list JsString :=
  List.map js
    ["constructor"; "__defineGetter__"; "__defineSetter__"; "hasOwnProperty";
     "__lookupGetter__"; "__lookupSetter__"; "isPrototypeOf";
     "propertyIsEnumerable"; "toString"; "valueOf"; "__proto__";
     "toLocaleString"]%string.

(** [doc[key] === undefined]: no own property, and nothing inherited. *)
Definition isUndefinedAt (doc : Doc) (key : JsString) : bool :=
  match doc !! key with
  | Some _ => false
  | None => negb (bool_decide (key ∈ objectPrototypeNames))
  end.

(** [doc[name] = value] for a string, number or boolean [value]: an own
    property, except that the [__proto__] setter ignores a primitive. *)
Definition assign (doc : Doc) (name : JsString) (value : Json) : Doc :=
  if streq name (js "__proto__") then doc else <[name := value]> doc.

(** [row[i]]: [undefined] for a hole or past the end. *)
Definition cell (row : list JsValue) (i : nat) : JsValue :=
  default VUndefined (row !! i).

(** Field list, types and defaults derived from the mapping; [defaults]
    is held as the entries [Object.entries] enumerates. *)
Record LoaderConfig := {
  fieldNames : list JsString;
  fieldTypes : gmap JsString JsString;
  defaults : list (JsString * Json)
}.

(** The first loop of [rowToDoc]: field [i] takes cell [i]. *)
Fixpoint fillFields (row : list JsValue) (fieldTypes : gmap JsString JsString)
    (names : list JsString) (i : nat) (doc : Doc) : Completion Doc :=
  match names with
  | [] => Normal doc
  | name :: rest =>
      let! value := coerce (cell row i) (fieldTypes !! name) in
      fillFields row fieldTypes rest (S i)
        (match value with
         | Some v => assign doc name v
         | None => doc
         end)
  end.

(** The second loop of [rowToDoc]: a default for what is still undefined. *)
Fixpoint applyDefaults (entries : list (JsString * Json)) (doc : Doc) : Doc :=
  match entries with
  | [] => doc
  | (key, value) :: rest =>
      applyDefaults rest (if isUndefinedAt doc key then <[key := value]> doc else doc)
  end.

(** [rowToDoc(row, fieldNames, fieldTypes, defaults)]: [None] is [null]. *)
Definition rowToDoc (row : list JsValue) (fieldNames : list JsString)
    (fieldTypes : gmap JsString JsString) (defaults : list (JsString * Json))
    : Completion (option Doc) :=
  let! doc := fillFields row fieldTypes fieldNames 0 ∅ in
  let doc := applyDefaults defaults doc in
  Normal (if bool_decide (0 < size doc)%nat then Some doc else None).

End Loader.

(* ================================================================== *)
(** * The Elasticsearch client *)
(* ================================================================== *)

(** ** Queries *)

Inductive Operator := OpOr | OpAnd.

(** The query clauses the server builds. *)
Inductive Query :=
  | Match (field query : JsString) (operator : option Operator)
  | MatchPhrase (field query : JsString)
  | Term (field : JsString) (value : Json)
  | BoolQuery (must filter : list Query).

(** ** Requests and responses *)

(** A line of a bulk body: an action, or the source of the one before. *)
Inductive BulkLine :=
  | IndexAction (_index : JsString)
  | Source (doc : Doc).

Record BulkRequest := {
  operations : list BulkLine;
  bulk_refresh : bool
}.

Record SearchRequest := {
  search_index : JsString;
  search_size : Z;
  search_query : Query;
  search_source : list JsString
}.

Record Hit := {
  hit_id : JsString;
  hit_source : option Doc
}.

(** [result.hits.hits], which may be missing. *)
Record SearchResponse := {
  response_hits : option (list Hit)
}.

Record UpdateRequest := {
  update_index : JsString;
  update_id : JsString;
  update_doc : Doc;
  update_refresh : bool
}.

(** ** Calls *)

(** An awaited computation over a backend of state [W]: it ends normally
    or throws, and what it did to the backend stays done either way. *)
Definition Async (W A : Type) : Type := W -> Completion A * W.

Definition ret {W A} (a : A) : Async W A := fun w => (Normal a, w).

Definition bind {W A B} (m : Async W A) (k : A -> Async W B) : Async W B :=
  fun w =>
    match m w with
    | (Normal a, w') => k a w'
    | (Throw e, w') => (Throw e, w')
    end.

(** A synchronous computation inside an asynchronous function. *)
Definition lift {W A} (c : Completion A) : Async W A := fun w => (c, w).

(** [try { m } catch (err) { h err }]. *)
Definition tryCatch {W A} (m : Async W A) (h : Thrown -> Async W A) : Async W A :=
  fun w =>
    match m w with
    | (Normal a, w') => (Normal a, w')
    | (Throw e, w') => h e w'
    end.

Notation "'do!' x ':=' m 'in' k" := (bind m (fun x => k))
  (at level 10, x name, m at level 100, k at level 200).

(** The three client methods the code calls, over a backend of state [W].
    The responses of [bulk] and [update] are not read by the code. *)
Record Client (W : Type) := {
  bulk : BulkRequest -> Async W unit;
  search : SearchRequest -> Async W SearchResponse;
  update : UpdateRequest -> Async W unit
}.
Arguments bulk {W} _ _ _.
Arguments search {W} _ _ _.
Arguments update {W} _ _ _.

(** A client whose backend state is the list of the calls made so far,
    latest last.  [answer] is what a search returns; [failure] makes a call
    throw, given the calls before it. *)
Inductive Call :=
  | CallBulk (r : BulkRequest)
  | CallSearch (r : SearchRequest)
  | CallUpdate (r : UpdateRequest).

Definition recording (answer : SearchRequest -> SearchResponse)
    (failure : list Call -> Call -> option Thrown) : Client (list Call) :=
  let call {A} (c : Call) (a : A) : Async (list Call) A :=
    fun log =>
      match failure log c with
      | Some e => (Throw e, log ++ [c])
      | None => (Normal a, log ++ [c])
      end in
  {| bulk := fun r => call (CallBulk r) tt;
     search := fun r => call (CallSearch r) (answer r);
     update := fun r => call (CallUpdate r) tt |}.

(** No call fails. *)
Definition reliable : list Call -> Call -> option Thrown := fun _ _ => None.

(** The documents of the bulk calls of a log, in the order sent. *)
Definition sources (ops : list BulkLine) : list Doc :=
  omap (fun l => match l with Source d => Some d | IndexAction _ => None end) ops.

Definition indexedDocs (log : list Call) : list Doc :=
  mjoin (omap (fun c => match c with
                        | CallBulk r => Some (sources (operations r))
                        | _ => None
                        end) log).

(* ================================================================== *)
(** * The loader: reading the sheet and bulk indexing *)
(* ================================================================== *)

(** Run-time settings. *)
Record RunConfig := {
  elasticsearchUrl : JsString;
  indexName : JsString;
  excelPath : JsString;
  mappingPath : JsString;
  batchSize : Z
}.

(** What is at a path: a file the reader rejects, or a workbook, each
    sheet given as the rows [sheet_to_json] yields with [header: 1]. *)
Inductive ExcelFile :=
  | Unreadable (e : Thrown)
  | Workbook (sheets : list (list (list JsValue))).

(** The files that exist, by path. *)
Definition Files := JsString -> option ExcelFile.

Definition Error (message : JsString) : Thrown := ErrorObject (js "Error") message.

(** [loadExcelRows(excelPath)]: the rows of the first sheet after the
    header row. *)
Definition loadExcelRows (fs : Files) (excelPath : JsString)
    : Completion (list (list JsValue)) :=
  match fs excelPath with
  | None => Throw (Error (js "Excel file not found: " ++ excelPath))
  | Some (Unreadable e) => Throw e
  | Some (Workbook sheets) =>
      match sheets with
      | [] => Throw (Error (js "Workbook has no sheets"))
      | rows :: _ =>
          if (length rows <? 2)%nat then Throw (Error (js "No data rows in sheet"))
          else Normal (tail rows)
      end
  end.

Section BulkLoader.
Context `{Engine} {W : Type} (client : Client W).

(** [flushBatch(client, batch, indexName)]: one bulk call, none for an
    empty batch. *)
Definition flushBatch (batch : list Doc) (indexName : JsString) : Async W unit :=
  match batch with
  | [] => ret tt
  | _ =>
      let operations :=
        flat_map (fun doc => [IndexAction indexName; Source doc]) batch in
      bulk client {| operations := operations; bulk_refresh := false |}
  end.

(** The loop of [loadAndIndex] from a given row on, and what follows it;
    [batch] and [indexed] are the variables of the same names. *)
Fixpoint indexRows (config : LoaderConfig) (runConfig : RunConfig)
    (rows : list (list JsValue)) (batch : list Doc) (indexed : nat) : Async W nat :=
  match rows with
  | [] =>
      do! _ := flushBatch batch (indexName runConfig) in
      ret (indexed + length batch)%nat
  | row :: rest =>
      do! doc := lift (rowToDoc row (fieldNames config) (fieldTypes config) (defaults config)) in
      match doc with
      | Some d =>
          let batch := batch ++ [d] in
          if batchSize runConfig <=? Z.of_nat (length batch) then
            do! _ := flushBatch batch (indexName runConfig) in
            indexRows config runConfig rest [] (indexed + length batch)%nat
          else indexRows config runConfig rest batch indexed
      | None => indexRows config runConfig rest batch indexed
      end
  end.

(** [loadAndIndex(client, config, runConfig)]. *)
Definition loadAndIndex (fs : Files) (config : LoaderConfig) (runConfig : RunConfig)
    : Async W nat :=
  do! rows := lift (loadExcelRows fs (excelPath runConfig)) in
  indexRows config runConfig rows [] 0%nat.

End BulkLoader.

(* ================================================================== *)
(** * The API server *)
(* ================================================================== *)

(** ** The query builder *)

Inductive Mode := Free | Any | Phrase.

(** The string a mode is at run time. *)
Definition modeName (m : Mode) : JsString :=
  match m with
  | Free => js "free"
  | Any => js "any"
  | Phrase => js "phrase"
  end.

(** [buildEsQuery(q, mode)], on the mode as the string it is. *)
Definition buildEsQuery (q : JsString) (mode : JsString) : Query :=
  let mustQuery :=
    if streq mode (js "free") then Match (js "namePrimary") q None
    else if streq mode (js "phrase") then MatchPhrase (js "allText") q
    else Match (js "allText") q (Some OpOr) in
  BoolQuery [mustQuery] [Term (js "isDeleted") (JBool false)].

(** ** Requests and responses of the server *)

(** A value of [req.query], as the query-string parser builds it. *)
Inductive QueryValue :=
  | QString (s : JsString)
  | QArray (items : list QueryValue)
  | QObject (members : list (JsString * QueryValue)).

(** [String(v)] for a value of [req.query]: an array joins its items with
    commas, an object is [[object Object]]. *)
Fixpoint queryToString (v : QueryValue) : JsString :=
  match v with
  | QString s => s
  | QArray items =>
      (fix join (l : list QueryValue) : JsString :=
         match l with
         | [] => []
         | [x] => queryToString x
         | x :: rest => queryToString x ++ js "," ++ join rest
         end) items
  | QObject _ => js "[object Object]"
  end.

(** The body of a JSON response. *)
Inductive Body :=
  | HitsObject (hits : list Doc)          (* { hits: [...] } *)
  | HitsArray (hits : list Doc)           (* [...] *)
  | ErrorBody (error : JsString) (details : option JsString)
  | OkBody.                               (* { ok: true } *)

Record Response := {
  status : Z;
  body : Body
}.

(** [res.json(body)] and [res.status(code).json(body)]. *)
Definition json (body : Body) : Response := {| status := 200; body := body |}.
Definition statusJson (code : Z) (body : Body) : Response :=
  {| status := code; body := body |}.

Section Server.
Context `{Engine} {W : Type} (client : Client W) (INDEX_NAME : JsString).

(** [err?.message ?? String(err)]. *)
Definition errorDetails (err : Thrown) : JsString :=
  match err with
  | ErrorObject _ message => message
  | ThrownValue v => ToString v
  end.

(** [String(v ?? fallback).trim()] for a request parameter. *)
Definition param (v : option QueryValue) (fallback : string) : JsString :=
  trim (match v with
        | Some x => queryToString x
        | None => js fallback
        end).

(** [{ id: h._id, ...(h._source ?? {}) }]: a source field named [id]
    replaces the identifier. *)
Definition hitToJson (h : Hit) : Doc :=
  default ∅ (hit_source h) ∪ {[ js "id" := JStr (hit_id h) ]}.

(** The handler of [GET /api/search], given [req.query.q] and
    [req.query.mode]; the line it logs on an error is left out. *)
Definition searchHandler (q mode : option QueryValue) : Async W Response :=
  tryCatch
    (let q := param q "" in
     let modeRaw := param mode "free" in
     if negb (truthy q) then ret (json (HitsObject []))
     else
       let mode :=
         if bool_decide (modeRaw ∈ [js "free"; js "any"; js "phrase"]) then modeRaw
         else js "free" in
       do! result := search client
           {| search_index := INDEX_NAME;
              search_size := 200;
              search_query := buildEsQuery q mode;
              search_source := List.map js ["namePrimary"; "title"; "nameSecondary";
                                          "group"; "kind"; "neighborhood"]%string |} in
       let hits := List.map hitToJson (default [] (response_hits result)) in
       ret (json (HitsArray hits)))
    (fun err =>
       let details := errorDetails err in
       ret (statusJson 500 (ErrorBody (js "Search failed") (Some details)))).

(** The handler of [DELETE /api/streets/:id], given [req.params.id]. *)
Definition deleteHandler (id : option JsString) : Async W Response :=
  tryCatch
    (let id := trim (default [] id) in
     if negb (truthy id) then ret (statusJson 400 (ErrorBody (js "Missing id") None))
     else
       do! _ := update client
           {| update_index := INDEX_NAME;
              update_id := id;
              update_doc := {[ js "isDeleted" := JBool true ]};
              update_refresh := true |} in
       ret (json OkBody))
    (fun err =>
       ret (statusJson 500 (ErrorBody (js "Delete failed") (Some (errorDetails err))))).

End Server.

(** ** What a query matches *)

Section Matching.

(** How the backend matches analysed text is its own business. *)
Variable matchText : JsString -> JsString -> option Operator -> Doc -> bool.
Variable matchPhrase : JsString -> JsString -> Doc -> bool.

(** A term clause compares the stored value of the field. *)
Definition termEq (stored value : Json) : bool :=
  match stored, value with
  | JBool a, JBool b => Bool.eqb a b
  | JStr a, JStr b => streq a b
  | JNum a, JNum b => SFeqb a b
  | _, _ => false
  end.

(** Whether document [d] is matched by a query: a bool query needs every
    [must] clause and every [filter] clause. *)
Fixpoint satisfies (d : Doc) (q : Query) : bool :=
  match q with
  | Match field text operator => matchText field text operator d
  | MatchPhrase field text => matchPhrase field text d
  | Term field value =>
      match d !! field with
      | Some stored => termEq stored value
      | None => false
      end
  | BoolQuery must filter =>
      forallb (satisfies d) must && forallb (satisfies d) filter
  end.

End Matching.

(* ================================================================== *)
(** * Vocabulary of the specification *)
(* ================================================================== *)

(** A raw cell value of the input domain of [coerce]: a string, a number,
    a boolean, [null], or absent. *)
Definition isCellValue (raw : JsValue) : Prop :=
  match raw with
  | VSymbol _ => False
  | _ => True
  end.

(** An absent cell: [undefined] or [null]. *)
Definition absent (raw : JsValue) : bool :=
  match raw with
  | VUndefined | VNull => true
  | _ => false
  end.

(** Every declared field's cell of the row is absent. *)
Definition emptyRow (row : list JsValue) (fieldNames : list JsString) : Prop :=
  forall i : nat, (i < length fieldNames)%nat -> absent (cell row i) = true.

(** A declared type that makes [coerce] convert to a number. *)
Definition integerType (type : option JsString) : Prop :=
  type = Some (js "integer") \/ type = Some (js "long").

(** A coerced value is a string, a number or a boolean. *)
Definition isScalar (v : Json) : Prop :=
  match v with
  | JStr _ | JNum _ | JBool _ => True
  | _ => False
  end.

(** Row by row, the documents a list of rows maps to when none is
    discarded. *)
Definition mapsTo `{Engine} (config : LoaderConfig) (rows : list (list JsValue))
    (docs : list Doc) : Prop :=
  Forall2 (fun row d =>
             rowToDoc row (fieldNames config) (fieldTypes config) (defaults config)
             = Normal (Some d)) rows docs.

(** Every bulk call of the client ends normally. *)
Definition bulkSucceeds {W} (client : Client W) : Prop :=
  forall r w, exists w', bulk client r w = (Normal tt, w').

(** ** An engine to evaluate examples with *)

(** Lower case of the Basic Latin capitals; other code units are kept. *)
Definition lowerBasicLatin (s : JsString) : JsString :=
  List.map (fun c => if ((65 <=? c) && (c <=? 90))%N then (c + 32)%N else c) s.

Definition referenceEngine : Engine :=
  {| toLowerCase := lowerBasicLatin; NumberToString := numberToString |}.

(** ** Sample inputs *)

(** A recording client that answers every search with no hits, and a
    small configuration and sheet, to evaluate the definitions on. *)

Definition noHits : SearchRequest -> SearchResponse :=
  fun _ => {| response_hits := None |}.

Definition sampleClient : Client (list Call) := recording noHits reliable.

Definition sampleConfig : LoaderConfig :=
  {| fieldNames := [js "namePrimary"; js "code"];
     fieldTypes := {[ js "namePrimary" := js "text"; js "code" := js "integer" ]};
     defaults := [(js "isDeleted", JBool false)] |}.

Definition sampleRun : RunConfig :=
  {| elasticsearchUrl := js "http://localhost:9200";
     indexName := js "streets";
     excelPath := js "data/streets.xlsx";
     mappingPath := js "elastic/mapping.json";
     batchSize := 2 |}.

Definition sampleHeader : list JsValue := [VStr (js "name"); VStr (js "code")].

Definition sampleRows : list (list JsValue) :=
  [ [VStr (js "Herzl"); VNum (ofZ 7)];
    [VStr (js " Allenby "); VStr (js "12")];
    [VStr (js "Dizengoff")] ].

Definition sampleDocs : list Doc :=
  [ {[ js "namePrimary" := JStr (js "Herzl"); js "code" := JNum (ofZ 7);
       js "isDeleted" := JBool false ]};
    {[ js "namePrimary" := JStr (js "Allenby"); js "code" := JNum (ofZ 12);
       js "isDeleted" := JBool false ]};
    {[ js "namePrimary" := JStr (js "Dizengoff"); js "isDeleted" := JBool false ]} ].

Definition sampleFiles (sheet : list (list JsValue)) : Files :=
  fun path => if streq path (js "data/streets.xlsx") then Some (Workbook [sheet]) else None.

(* ================================================================== *)
(** * The mapping: field schema, index provisioning, the whole run *)
(* ================================================================== *)

(** ** The mapping file *)

(** An entry of [mappings.properties], as the code reads it:
    [{ type?: string }]. *)
Record FieldDef := {
  def_type : option JsString
}.

(** [mapping.mappings], as the code reads it; [properties], when there,
    holds the field definitions in the order [Object.keys] enumerates. *)
Record MappingsDef := {
  properties : option (list (JsString * FieldDef))
}.

(** The parsed mapping file: [mappings], [defaults], and its other
    top-level keys ([settings] and the like). *)
Record Mapping := {
  mappings : option MappingsDef;
  mapping_defaults : option Json;
  otherKeys : gmap JsString Json
}.

(** [mapping?.mappings?.properties]. *)
Definition props (mapping : Mapping) : option (list (JsString * FieldDef)) :=
  match mappings mapping with
  | Some m => properties m
  | None => None
  end.

(** [props[fieldName]] for an own property. *)
Fixpoint lookupDef (ps : list (JsString * FieldDef)) (fieldName : JsString)
    : option FieldDef :=
  match ps with
  | [] => None
  | (name, def) :: rest =>
      if streq name fieldName then Some def else lookupDef rest fieldName
  end.

(** [getFieldNames(mapping)]. *)
Definition getFieldNames (mapping : Mapping) : list JsString :=
  match props mapping with
  | None => []
  | Some ps =>
      List.filter (fun name => negb (streq name (js "allText"))) (List.map fst ps)
  end.

(** [getFieldType(mapping, fieldName)]; a member that [props] only
    inherits has no [type], like a missing one. *)
Definition getFieldType (mapping : Mapping) (fieldName : JsString) : JsString :=
  let def :=
    match props mapping with
    | Some ps => lookupDef ps fieldName
    | None => None
    end in
  match def with
  | Some d => default (js "text") (def_type d)
  | None => js "text"
  end.

(** [getDefaults(mapping)]: the entries of [defaults] when it is an
    object and no array, none otherwise. *)
Definition getDefaults (mapping : Mapping) : list (JsString * Json) :=
  match mapping_defaults mapping with
  | Some (JObj members) => members
  | _ => []
  end.

(** [fieldTypes[name] = type]: an own property, except that the
    [__proto__] setter ignores a string. *)
Definition setType (fieldTypes : gmap JsString JsString) (name type : JsString)
    : gmap JsString JsString :=
  if streq name (js "__proto__") then fieldTypes else <[name := type]> fieldTypes.

(** [buildLoaderConfig(mapping)]. *)
Definition buildLoaderConfig (mapping : Mapping) : Completion LoaderConfig :=
  let fieldNames := getFieldNames mapping in
  if (length fieldNames =? 0)%nat then
    Throw (Error (js "No indexable fields in mapping"))
  else
    let fieldTypes :=
      fold_left (fun fieldTypes name => setType fieldTypes name (getFieldType mapping name))
        fieldNames ∅ in
    Normal {| fieldNames := fieldNames;
              fieldTypes := fieldTypes;
              defaults := getDefaults mapping |}.

(** ** Index provisioning *)

(** The parameters of [indices.create]: [{ index: indexName,
    ...indexParams }], where [indexParams] is the mapping without its
    [defaults]; a top-level [index] of the mapping comes last and wins. *)
Record CreateRequest := {
  create_mappings : option MappingsDef;
  create_params : gmap JsString Json
}.

(** The two methods of [client.indices] the loader calls. *)
Record IndicesClient (W : Type) := {
  indices_exists : JsString -> Async W bool;
  indices_create : CreateRequest -> Async W unit
}.
Arguments indices_exists {W} _ _ _.
Arguments indices_create {W} _ _ _.

(** [ensureIndex(client, mapping, indexName)]. *)
Definition ensureIndex {W} (indices : IndicesClient W) (mapping : Mapping)
    (indexName : JsString) : Async W unit :=
  do! exists_ := indices_exists indices indexName in
  if negb exists_ then
    indices_create indices
      {| create_mappings := mappings mapping;
         create_params := otherKeys mapping ∪ {[ js "index" := JStr indexName ]} |}
  else ret tt.

(** ** The whole run *)

(** What reading and parsing the file at a path gives: a mapping, or a
    throw (no file, no JSON). *)
Definition MappingFiles := JsString -> Completion Mapping.

(** [loadMapping(filePath)]. *)
Definition loadMapping (mfs : MappingFiles) (filePath : JsString) : Completion Mapping :=
  mfs filePath.

Record LoadResult := {
  result_indexed : nat;
  result_indexName : JsString
}.

(** [runLoader()], given the run configuration that [getRunConfig()]
    builds from the environment. *)
Definition runLoader `{Engine} {W} (runConfig : RunConfig) (mfs : MappingFiles)
    (fs : Files) (indices : IndicesClient W) (client : Client W) : Async W LoadResult :=
  do! mapping := lift (loadMapping mfs (mappingPath runConfig)) in
  do! _ := ensureIndex indices mapping (indexName runConfig) in
  do! loaderConfig := lift (buildLoaderConfig mapping) in
  do! indexed := loadAndIndex client fs loaderConfig runConfig in
  ret {| result_indexed := indexed; result_indexName := indexName runConfig |}.

(** ** A backend that records every call *)

Inductive IndicesCall :=
  | CallExists (index : JsString)
  | CallCreate (r : CreateRequest).

Inductive BackendCall :=
  | OnIndices (c : IndicesCall)
  | OnClient (c : Call).

(** [existing] tells which indices exist. *)
Definition loggingIndices (existing : JsString -> bool) : IndicesClient (list BackendCall) :=
  {| indices_exists := fun index log =>
       (Normal (existing index), log ++ [OnIndices (CallExists index)]);
     indices_create := fun r log =>
       (Normal tt, log ++ [OnIndices (CallCreate r)]) |}.

Definition loggingClient (answer : SearchRequest -> SearchResponse)
    : Client (list BackendCall) :=
  {| bulk := fun r log => (Normal tt, log ++ [OnClient (CallBulk r)]);
     search := fun r log => (Normal (answer r), log ++ [OnClient (CallSearch r)]);
     update := fun r log => (Normal tt, log ++ [OnClient (CallUpdate r)]) |}.

(** ** Further vocabulary *)

(** No white space at either end. *)
Definition trimmed (s : JsString) : Prop :=
  (forall c rest, s = c :: rest -> isStrWhiteSpaceChar c = false)
  /\ (forall c init, s = init ++ [c] -> isStrWhiteSpaceChar c = false).

(** A declared type that makes [coerce] keep the trimmed text. *)
Definition textType (type : option JsString) : Prop :=
  typeIs type "integer" || typeIs type "long" || typeIs type "boolean" = false.

(** Row by row, what [rowToDoc] gives when it does not throw: a
    document, or [None] for a discarded row. *)
Definition rowResults `{Engine} (config : LoaderConfig) (rows : list (list JsValue))
    (results : list (option Doc)) : Prop :=
  Forall2 (fun row r =>
             rowToDoc row (fieldNames config) (fieldTypes config) (defaults config)
             = Normal r) rows results.

(** The documents that are kept, in order. *)
Definition kept (results : list (option Doc)) : list Doc := omap (fun r => r) results.

(** The bulk requests among the calls of a log, in order. *)
Definition bulkCalls (log : list Call) : list BulkRequest :=
  omap (fun c => match c with CallBulk r => Some r | _ => None end) log.

(** How many documents a bulk request carries. *)
Definition docCount (r : BulkRequest) : nat := length (sources (operations r)).

(** The request for a batch: for each document an index action into
    [idx] and then the document; no refresh. *)
Definition batchRequest (idx : JsString) (batch : list Doc) : BulkRequest :=
  {| operations := flat_map (fun d => [IndexAction idx; Source d]) batch;
     bulk_refresh := false |}.

(** The outcome of a run of the loader on a recording client, from the
    log [before] on: the bulk requests it made, whose documents are a
    prefix of [docs]; on a normal end the count of all of [docs], all of
    them sent; on a throw, a last call that the client failed. *)
Definition loaderRun (failure : list Call -> Call -> option Thrown)
    (before : list Call) (docs : list Doc) (start : nat)
    (out : Completion nat * list Call) (reqs : list BulkRequest) : Prop :=
  snd out = before ++ List.map CallBulk reqs
  /\ concat (List.map (fun r => sources (operations r)) reqs) `prefix_of` docs
  /\ match fst out with
     | Normal n =>
         n = (start + length docs)%nat
         /\ concat (List.map (fun r => sources (operations r)) reqs) = docs
     | Throw e =>
         exists l r, snd out = l ++ [CallBulk r] /\ failure l (CallBulk r) = Some e
     end.


(** ** More sample inputs *)

Definition sampleMapping : Mapping :=
  {| mappings := Some {| properties := Some
       [ (js "namePrimary", {| def_type := Some (js "text") |});
         (js "code", {| def_type := Some (js "integer") |});
         (js "title", {| def_type := None |});
         (js "allText", {| def_type := Some (js "text") |}) ] |};
     mapping_defaults := Some (JObj [(js "isDeleted", JBool false)]);
     otherKeys := {[ js "settings" := JObj [] ]} |}.

(** A mapping whose only property is the [copy_to] target. *)
Definition bareMapping : Mapping :=
  {| mappings := Some {| properties := Some [ (js "allText", {| def_type := Some (js "text") |}) ] |};
     mapping_defaults := None;
     otherKeys := ∅ |}.

(** The first sample row and its document. *)
Definition herzlRow : list JsValue := [VStr (js "Herzl"); VNum (ofZ 7)].

Definition herzlDoc : Doc :=
  {[ js "namePrimary" := JStr (js "Herzl"); js "code" := JNum (ofZ 7);
     js "isDeleted" := JBool false ]}.

(** What [buildLoaderConfig] makes of the sample mapping. *)
Definition mappedConfig : LoaderConfig :=
  {| fieldNames := [js "namePrimary"; js "code"; js "title"];
     fieldTypes := {[ js "namePrimary" := js "text"; js "code" := js "integer";
                      js "title" := js "text" ]};
     defaults := [(js "isDeleted", JBool false)] |}.

(** A hit with one display field. *)
Definition herzlHit : Hit :=
  {| hit_id := js "Ab3xY"; hit_source := Some {[ js "namePrimary" := JStr (js "Herzl") ]} |}.

(** The update that the delete handler sends for the identifier [Ab3xY]
    in the index [streets]. *)
Definition herzlUpdate : UpdateRequest :=
  {| update_index := js "streets";
     update_id := js "Ab3xY";
     update_doc := {[ js "isDeleted" := JBool true ]};
     update_refresh := true |}.

(** A configuration without defaults, and rows of which the second (no
    cell) and the third (white space, and no number) are discarded. *)
Definition plainConfig : LoaderConfig :=
  {| fieldNames := [js "namePrimary"; js "code"];
     fieldTypes := {[ js "namePrimary" := js "text"; js "code" := js "integer" ]};
     defaults := [] |}.

Definition sparseRows : list (list JsValue) :=
  [ [VStr (js "Herzl"); VNum (ofZ 7)];
    [];
    [VStr (js "  "); VStr (js "x")];
    [VStr (js "Allenby")] ].

Definition sparseResults : list (option Doc) :=
  [ Some {[ js "namePrimary" := JStr (js "Herzl"); js "code" := JNum (ofZ 7) ]};
    None;
    None;
    Some {[ js "namePrimary" := JStr (js "Allenby") ]} ].

(** A client that fails every bulk call after the first. *)
Definition failAfterFirst : list Call -> Call -> option Thrown :=
  fun log c =>
    match c with
    | CallBulk _ =>
        if (1 <=? length (bulkCalls log))%nat then Some (Error (js "bulk rejected"))
        else None
    | _ => None
    end.


Definition sampleMappingFiles (mapping : Mapping) : MappingFiles :=
  fun path =>
    if streq path (js "elastic/mapping.json") then Normal mapping
    else Throw (Error (js "ENOENT: no such file or directory")).

(* ================================================================== *)
(** * Properties of the string and number conversions *)
(* ================================================================== *)

Lemma trimStart_blank (s : JsString) : blank s -> trimStart s = [].
Proof.
  induction 1 as [|c s Hc _ IH]; simpl; [reflexivity|].
  now rewrite Hc.
Qed.

Lemma trim_blank (s : JsString) : blank s -> trim s = [].
Proof.
  intros Hs. unfold trim, trimEnd. now rewrite (trimStart_blank s Hs).
Qed.

(** White space alone converts to [+0]. *)
Lemma StringToNumber_blank (s : JsString) : blank s -> StringToNumber s = posZero.
Proof.
  intros Hs. unfold StringToNumber. now rewrite (trim_blank s Hs).
Qed.

(** The conversions on a few texts and numbers. *)
Example StringToNumber_samples :
  StringToNumber (js " 12 ") = ofZ 12
  /\ StringToNumber (js "0x1F") = ofZ 31
  /\ StringToNumber (js "1e3") = ofZ 1000
  /\ StringToNumber (js "-.5e1") = S754_finite true 5629499534213120 (-50)
  /\ StringToNumber (js "1e400") = Infinity false
  /\ StringToNumber (js "12px") = NaN
  /\ StringToNumber (js "1_000") = NaN.
Proof. vm_compute. repeat split. Qed.

Example numberToString_samples :
  numberToString (StringToNumber (js "0.1")) = js "0.1"
  /\ numberToString (StringToNumber (js "12.50")) = js "12.5"
  /\ numberToString (ofZ 1000) = js "1000"
  /\ numberToString (StringToNumber (js "1e21")) = js "1e+21"
  /\ numberToString (StringToNumber (js "0.0000001")) = js "1e-7"
  /\ numberToString (StringToNumber (js "-0")) = js "0".
Proof. vm_compute. repeat split. Qed.

(** [Number.isInteger] holds of the numbers that are integers. *)
Lemma isInteger_spec (n : Number) : isInteger n = true <-> exists z, isZ n z.
Proof.
  destruct n as [s|s| |s m e]; simpl.
  - split; [intros _; now exists 0 | reflexivity].
  - split; [discriminate | intros [_ []]].
  - split; [discriminate | intros [_ []]].
  - destruct (0 <=? e) eqn:He.
    + split; [intros _; eexists; reflexivity | reflexivity].
    + apply Z.leb_gt in He.
      assert (Hp : 0 < 2 ^ (- e)) by (apply Z.pow_pos_nonneg; lia).
      rewrite Z.eqb_eq, Z.mod_divide by lia.
      split.
      * intros [k Hk]. exists (cond_Zopp s k).
        destruct s; simpl; lia.
      * intros [z Hz]. exists (cond_Zopp s z).
        destruct s; simpl in *; lia.
Qed.

Lemma isInteger_false (n : Number) : isInteger n = false <-> ~ exists z, isZ n z.
Proof.
  rewrite <- isInteger_spec. destruct (isInteger n); split; congruence.
Qed.

Lemma typeIs_integer (type : option JsString) :
  integerType type -> typeIs type "integer" || typeIs type "long" = true.
Proof. intros [-> | ->]; reflexivity. Qed.

(* ================================================================== *)
(** * Value coercion *)
(* ================================================================== *)

Section CoercionProperties.
Context `{Engine}.

Lemma coerce_absent (raw : JsValue) (type : option JsString) :
  absent raw = true -> coerce raw type = Normal None.
Proof. destruct raw; simpl; congruence. Qed.

(** On a cell value the numeric conversion does not throw. *)
Lemma ToNumber_cell (raw : JsValue) :
  isCellValue raw -> exists n, ToNumber raw = Normal n.
Proof.
  destruct raw as [| |[]| | |]; simpl; intros Hc; try contradiction; eauto.
Qed.

(** With an integer type, a present value is converted to a number and
    kept when [Number.isInteger] accepts it. *)
Lemma coerce_numeric_eq (raw : JsValue) (type : option JsString) (n : Number) :
  absent raw = false -> integerType type -> ToNumber raw = Normal n ->
  coerce raw type = Normal (if isInteger n then Some (JNum n) else None).
Proof.
  intros Hp Ht Hn. apply typeIs_integer in Ht.
  destruct raw; simpl in Hp; try discriminate; unfold coerce;
    rewrite Ht, Hn; reflexivity.
Qed.

(** A symbol is outside the input domain: converting it to a number
    throws, and [coerce] with it. *)
Remark coerce_symbol_throws (d : JsString) :
  exists e, coerce (VSymbol d) (Some (js "integer")) = Throw e.
Proof. eexists. reflexivity. Qed.

(** C5. [coerce] is total on its input domain: for a raw value that is a
    string, a number, a boolean, [null] or absent, and any declared type,
    it ends normally, with a string, a number or a boolean, or with
    absent, never with [null]; an absent or [null] raw value gives absent;
    and a value the declared type cannot take (a number that is not whole
    for an integer type, white space alone for a text type) gives absent
    instead of a failure. *)
Theorem coerce_total (raw : JsValue) (type : option JsString) :
  isCellValue raw ->
  (exists r : option Json,
      coerce raw type = Normal r
      /\ r <> Some JNull
      /\ (forall v, r = Some v -> isScalar v))
  /\ (absent raw = true -> coerce raw type = Normal None)
  /\ (forall n, absent raw = false -> integerType type ->
        ToNumber raw = Normal n -> isInteger n = false ->
        coerce raw type = Normal None)
  /\ (forall s, raw = VStr s -> blank s ->
        typeIs type "integer" || typeIs type "long" || typeIs type "boolean" = false ->
        coerce raw type = Normal None).
Proof.
  intros Hc. repeat split.
  - destruct (absent raw) eqn:Ha.
    { exists None. rewrite (coerce_absent raw type Ha).
      repeat split; congruence. }
    destruct (typeIs type "integer" || typeIs type "long") eqn:Hi.
    + destruct (ToNumber_cell raw Hc) as [n Hn].
      exists (if isInteger n then Some (JNum n) else None). split.
      * destruct raw; simpl in Ha, Hc; try discriminate; try contradiction;
          unfold coerce; rewrite Hi, Hn; reflexivity.
      * destruct (isInteger n); split; try congruence;
          intros v [= <-]; exact I.
    + destruct (typeIs type "boolean") eqn:Hb.
      * destruct raw; simpl in Ha, Hc; try discriminate; try contradiction;
          unfold coerce; rewrite Hi, Hb; eexists; (split; [reflexivity|]);
          (split; [congruence | intros v [= <-]; exact I]).
      * exists (if truthy (trim (ToString raw))
                then Some (JStr (trim (ToString raw))) else None). split.
        -- destruct raw; simpl in Ha, Hc; try discriminate; try contradiction;
             unfold coerce; rewrite Hi, Hb;
             destruct (truthy _); reflexivity.
        -- destruct (truthy _); split; try congruence;
             intros v [= <-]; exact I.
  - apply coerce_absent.
  - intros n Ha Ht Hn Hi.
    rewrite (coerce_numeric_eq raw type n Ha Ht Hn), Hi. reflexivity.
  - intros s -> Hs Ht.
    apply orb_false_iff in Ht as [Ht Hb].
    unfold coerce. rewrite Ht, Hb. simpl.
    rewrite (trim_blank s Hs). reflexivity.
Qed.

(** C6. For a present raw cell value and a declared type "integer" or
    "long", coercion returns the numeric conversion of the value when
    that is an exact integer and absent otherwise: "12.5" gives absent,
    "12" gives 12 and "abc" gives absent. *)
Theorem coerce_integer :
  (forall (raw : JsValue) (type : option JsString),
      isCellValue raw -> absent raw = false -> integerType type ->
      exists n, ToNumber raw = Normal n
        /\ (((exists z, isZ n z) /\ coerce raw type = Normal (Some (JNum n)))
            \/ ((~ exists z, isZ n z) /\ coerce raw type = Normal None)))
  /\ coerce (VStr (js "12.5")) (Some (js "integer")) = Normal None
  /\ (exists n, coerce (VStr (js "12")) (Some (js "integer")) = Normal (Some (JNum n))
                /\ isZ n 12)
  /\ coerce (VStr (js "abc")) (Some (js "integer")) = Normal None.
Proof.
  split; [|split; [|split]].
  - intros raw type Hc Ha Ht.
    destruct (ToNumber_cell raw Hc) as [n Hn]. exists n. split; [exact Hn|].
    rewrite (coerce_numeric_eq raw type n Ha Ht Hn).
    destruct (isInteger n) eqn:Hi.
    + left. split; [now apply isInteger_spec | reflexivity].
    + right. split; [now apply isInteger_false | reflexivity].
  - vm_compute. reflexivity.
  - eexists. split; [vm_compute; reflexivity | vm_compute; reflexivity].
  - vm_compute. reflexivity.
Qed.

End CoercionProperties.

(* ================================================================== *)
(** * The row-to-document mapper *)
(* ================================================================== *)

Section MapperProperties.
Context `{Engine}.

(** Absent cells leave the document as it is. *)
Lemma fillFields_absent (row : list JsValue) (types : gmap JsString JsString)
    (names : list JsString) :
  forall (i : nat) (doc : Doc),
    (forall j : nat, (j < length names)%nat -> absent (cell row (i + j)) = true) ->
    fillFields row types names i doc = Normal doc.
Proof.
  induction names as [|name rest IH]; intros i doc Hrow; simpl; [reflexivity|].
  rewrite coerce_absent.
  - simpl. apply IH. intros j Hj.
    replace (S i + j)%nat with (i + S j)%nat by lia.
    apply Hrow. simpl. lia.
  - rewrite <- (Nat.add_0_r i). apply Hrow. simpl. lia.
Qed.

(** C3, amended. For every source row in which every declared schema
    field's cell is absent, and an empty defaults map, the row-to-document
    mapper returns no document. *)
Theorem rowToDoc_empty_row (row : list JsValue) (names : list JsString)
    (types : gmap JsString JsString) :
  emptyRow row names ->
  rowToDoc row names types [] = Normal None.
Proof.
  intros Hrow. unfold rowToDoc.
  rewrite fillFields_absent by (intros j Hj; apply Hrow, Hj).
  simpl. rewrite map_size_empty. reflexivity.
Qed.

(** C10. For a declared type "integer" or "long", a present string that
    is empty or white space only is coerced to the integer 0, and the
    boolean [true] to 1, not to absent; so such a cell puts 0 in the
    document instead of being left out. *)
Theorem coerce_blank_integer (type : option JsString) :
  integerType type ->
  (forall s : JsString, blank s ->
      coerce (VStr s) type = Normal (Some (JNum posZero)))
  /\ isZ posZero 0
  /\ coerce (VBool true) type = Normal (Some (JNum (ofZ 1)))
  /\ isZ (ofZ 1) 1
  /\ (forall (s name t : JsString), blank s -> type = Some t ->
        name <> js "__proto__" ->
        rowToDoc [VStr s] [name] {[ name := t ]} []
        = Normal (Some {[ name := JNum posZero ]})).
Proof.
  intros Ht.
  assert (Hblank : forall s : JsString, blank s ->
             coerce (VStr s) type = Normal (Some (JNum posZero))).
  { intros s Hs.
    rewrite (coerce_numeric_eq (VStr s) type (StringToNumber s)); try easy.
    now rewrite (StringToNumber_blank s Hs). }
  split; [exact Hblank|]. split; [reflexivity|]. split; [|split].
  - now rewrite (coerce_numeric_eq (VBool true) type (ofZ 1)).
  - vm_compute. reflexivity.
  - intros s name t Hs -> Hname.
    unfold rowToDoc. cbn [fillFields].
    rewrite lookup_singleton_eq.
    change (cell [VStr s] 0) with (VStr s).
    rewrite (Hblank s Hs). cbn [cbind applyDefaults].
    unfold assign, streq.
    rewrite (bool_decide_eq_false_2 (name = js "__proto__") Hname).
    rewrite insert_empty, map_size_singleton. reflexivity.
Qed.

End MapperProperties.

(* ================================================================== *)
(** * The bulk loader *)
(* ================================================================== *)

Lemma sources_batch (idx : JsString) (batch : list Doc) :
  sources (flat_map (fun d => [IndexAction idx; Source d]) batch) = batch.
Proof.
  induction batch as [|d batch IH]; simpl; [reflexivity|].
  unfold sources in *. simpl. now rewrite IH.
Qed.

Lemma indexedDocs_bulk (log : list Call) (r : BulkRequest) :
  indexedDocs (log ++ [CallBulk r]) = indexedDocs log ++ sources (operations r).
Proof.
  unfold indexedDocs. rewrite omap_app, join_app. simpl.
  now rewrite app_nil_r.
Qed.

Section LoaderProperties.
Context `{Engine}.

(** A sheet with a header row and at least one more row yields the rows
    after the header. *)
Lemma loadExcelRows_data (fs : Files) (path : JsString)
    (header : list JsValue) (rows : list (list JsValue))
    (others : list (list (list JsValue))) :
  fs path = Some (Workbook ((header :: rows) :: others)) -> rows <> [] ->
  loadExcelRows fs path = Normal rows.
Proof.
  intros Hfs Hrows. unfold loadExcelRows. rewrite Hfs.
  destruct rows; [contradiction | reflexivity].
Qed.

(** A sheet with fewer than two rows is an error. *)
Lemma loadExcelRows_no_data (fs : Files) (path : JsString)
    (sheet : list (list JsValue)) (others : list (list (list JsValue))) :
  fs path = Some (Workbook (sheet :: others)) -> (length sheet < 2)%nat ->
  loadExcelRows fs path = Throw (Error (js "No data rows in sheet")).
Proof.
  intros Hfs Hlen. unfold loadExcelRows. rewrite Hfs.
  apply Nat.ltb_lt in Hlen. now rewrite Hlen.
Qed.

Section AnyClient.
Context {W : Type} (client : Client W).
Hypothesis Hbulk : bulkSucceeds client.

Lemma flushBatch_succeeds (batch : list Doc) (idx : JsString) (w : W) :
  exists w', flushBatch client batch idx w = (Normal tt, w').
Proof.
  destruct batch; simpl; [now exists w | apply Hbulk].
Qed.

(** Every row counts once, whether it is flushed in the loop or after it. *)
Lemma indexRows_count (config : LoaderConfig) (rc : RunConfig)
    (rows : list (list JsValue)) (docs : list Doc) :
  mapsTo config rows docs ->
  forall (batch : list Doc) (indexed : nat) (w : W),
  exists w', indexRows client config rc rows batch indexed w
             = (Normal (indexed + length batch + length rows)%nat, w').
Proof.
  induction 1 as [|row d rows docs Hrow _ IH]; intros batch indexed w.
  - cbn [indexRows]. unfold bind.
    destruct (flushBatch_succeeds batch (indexName rc) w) as [w' ->].
    exists w'. unfold ret. simpl length. now rewrite Nat.add_0_r.
  - cbn [indexRows]. unfold bind at 1, lift. rewrite Hrow.
    destruct (batchSize rc <=? Z.of_nat (length (batch ++ [d]))).
    + unfold bind.
      destruct (flushBatch_succeeds (batch ++ [d]) (indexName rc) w) as [w1 ->].
      destruct (IH [] (indexed + length (batch ++ [d]))%nat w1) as [w' ->].
      exists w'. do 2 f_equal. rewrite length_app. simpl. lia.
    + destruct (IH (batch ++ [d]) indexed w) as [w' ->].
      exists w'. do 2 f_equal. rewrite length_app. simpl. lia.
Qed.

End AnyClient.

Section RecordingClient.
Variable answer : SearchRequest -> SearchResponse.

Lemma flushBatch_recorded (batch : list Doc) (idx : JsString) (log : list Call) :
  exists log', flushBatch (recording answer reliable) batch idx log = (Normal tt, log')
               /\ indexedDocs log' = indexedDocs log ++ batch.
Proof.
  destruct batch as [|d batch].
  - exists log. split; [reflexivity | now rewrite app_nil_r].
  - eexists. split; [reflexivity|].
    rewrite indexedDocs_bulk. cbn [operations].
    now rewrite sources_batch.
Qed.

(** What reaches the backend is the documents of the rows, in order. *)
Lemma indexRows_recorded (config : LoaderConfig) (rc : RunConfig)
    (rows : list (list JsValue)) (docs : list Doc) :
  mapsTo config rows docs ->
  forall (batch : list Doc) (indexed : nat) (log : list Call),
  exists n log', indexRows (recording answer reliable) config rc rows batch indexed log
                 = (Normal n, log')
                 /\ indexedDocs log' = indexedDocs log ++ batch ++ docs.
Proof.
  induction 1 as [|row d rows docs Hrow _ IH]; intros batch indexed log.
  - cbn [indexRows]. unfold bind.
    destruct (flushBatch_recorded batch (indexName rc) log) as (log' & -> & Hlog).
    eexists _, log'. split; [reflexivity|]. now rewrite app_nil_r.
  - cbn [indexRows]. unfold bind at 1, lift. rewrite Hrow.
    destruct (batchSize rc <=? Z.of_nat (length (batch ++ [d]))).
    + unfold bind.
      destruct (flushBatch_recorded (batch ++ [d]) (indexName rc) log)
        as (log1 & -> & Hlog1).
      destruct (IH [] (indexed + length (batch ++ [d]))%nat log1)
        as (n & log' & -> & Hlog').
      exists n, log'. split; [reflexivity|].
      rewrite Hlog', Hlog1. simpl. now rewrite <- !app_assoc.
    + destruct (IH (batch ++ [d]) indexed log) as (n & log' & -> & Hlog').
      exists n, log'. split; [reflexivity|].
      rewrite Hlog'. now rewrite <- !app_assoc.
Qed.

End RecordingClient.

(** C4. Loading N rows, N at least 1, each of which maps to a document,
    through a client whose bulk calls all succeed returns the count N,
    whatever the batch size; what is sent to the backend is those N
    documents; and a sheet with fewer than 2 rows (no row after the
    header) makes the loader throw before any call on the backend,
    not return 0. *)
Theorem loadAndIndex_count (fs : Files) (config : LoaderConfig) (rc : RunConfig) :
  (forall (header : list JsValue) (rows : list (list JsValue))
          (others : list (list (list JsValue))) (docs : list Doc),
      fs (excelPath rc) = Some (Workbook ((header :: rows) :: others)) ->
      rows <> [] ->
      mapsTo config rows docs ->
      (forall (W : Type) (client : Client W) (w : W),
          bulkSucceeds client ->
          exists w', loadAndIndex client fs config rc w = (Normal (length rows), w'))
      /\ (forall (answer : SearchRequest -> SearchResponse) (log : list Call),
          exists log',
            loadAndIndex (recording answer reliable) fs config rc log
            = (Normal (length rows), log')
            /\ indexedDocs log' = indexedDocs log ++ docs
            /\ length docs = length rows))
  /\ (forall (sheet : list (list JsValue)) (others : list (list (list JsValue))),
      fs (excelPath rc) = Some (Workbook (sheet :: others)) ->
      (length sheet < 2)%nat ->
      forall (W : Type) (client : Client W) (w : W),
        loadAndIndex client fs config rc w
        = (Throw (Error (js "No data rows in sheet")), w)).
Proof.
  split.
  - intros header rows others docs Hfs Hrows Hdocs.
    assert (Hload := loadExcelRows_data fs _ header rows others Hfs Hrows).
    split.
    + intros W client w Hbulk.
      unfold loadAndIndex, bind, lift. rewrite Hload.
      destruct (indexRows_count client Hbulk config rc rows docs Hdocs [] 0%nat w)
        as [w' ->].
      now exists w'.
    + intros answer log.
      assert (Hrel : bulkSucceeds (recording answer reliable)).
      { intros r w. eexists. reflexivity. }
      unfold loadAndIndex, bind, lift. rewrite Hload.
      destruct (indexRows_recorded answer config rc rows docs Hdocs [] 0%nat log)
        as (n & log' & Hrun & Hlog).
      destruct (indexRows_count _ Hrel config rc rows docs Hdocs [] 0%nat log)
        as [log'' Hcount].
      rewrite Hrun in Hcount. injection Hcount as Hn _.
      simpl in Hn. subst n.
      exists log'. split; [exact Hrun|]. split; [exact Hlog|].
      symmetry. exact (Forall2_length _ _ _ Hdocs).
  - intros sheet others Hfs Hlen W client w.
    unfold loadAndIndex, bind, lift.
    now rewrite (loadExcelRows_no_data fs _ sheet others Hfs Hlen).
Qed.

End LoaderProperties.

(* ================================================================== *)
(** * The query builder *)
(* ================================================================== *)

Section QueryProperties.
Variable matchText : JsString -> JsString -> option Operator -> Doc -> bool.
Variable matchPhrase : JsString -> JsString -> Doc -> bool.

Local Abbreviation matched := (satisfies matchText matchPhrase).

(** The primary clause of a built query, and its filter. *)
Lemma buildEsQuery_shape (q mode : JsString) :
  exists primary,
    buildEsQuery q mode = BoolQuery [primary] [Term (js "isDeleted") (JBool false)]
    /\ (primary = Match (js "namePrimary") q None
        \/ primary = MatchPhrase (js "allText") q
        \/ primary = Match (js "allText") q (Some OpOr)).
Proof.
  unfold buildEsQuery.
  destruct (streq mode (js "free")); [eauto|].
  destruct (streq mode (js "phrase")); eauto.
Qed.

(** A term clause on [false] accepts the stored boolean [false] only. *)
Lemma termEq_false (stored : Json) :
  termEq stored (JBool false) = true <-> stored = JBool false.
Proof.
  destruct stored as [|[]| | | |]; simpl; split; congruence.
Qed.

(** A bool query of one [must] clause and the filter [isDeleted ==
    false] is the conjunction of the two. *)
Lemma filtered_iff (primary : Query) (d : Doc) :
  matched d (BoolQuery [primary] [Term (js "isDeleted") (JBool false)]) = true
  <-> matched d primary = true /\ d !! js "isDeleted" = Some (JBool false).
Proof.
  cbn [satisfies forallb]. rewrite !andb_true_r, andb_true_iff.
  destruct (d !! js "isDeleted") as [stored|].
  - rewrite termEq_false. split; intros [? ?]; split; congruence.
  - split; intros [? ?]; congruence.
Qed.

(** C1. For every query string and every search mode, the built query is
    the conjunction of the primary clause of that mode on that query
    string (a match on [namePrimary] for [free], a match on [allText] with
    the operator [or] for [any], a phrase match on [allText] for
    [phrase]) and the filter [isDeleted == false]: a document satisfies it
    exactly when it satisfies that primary clause and its [isDeleted] is
    [false].  The filter does not depend on the mode: for any mode string
    at all the built query is one of these three clauses on the query
    string together with the same filter, so a document whose [isDeleted]
    is [true] satisfies the built query in no mode. *)
Theorem buildEsQuery_not_deleted (q : JsString) :
  (forall m : Mode,
      let primary :=
        match m with
        | Free => Match (js "namePrimary") q None
        | Any => Match (js "allText") q (Some OpOr)
        | Phrase => MatchPhrase (js "allText") q
        end in
      buildEsQuery q (modeName m)
      = BoolQuery [primary] [Term (js "isDeleted") (JBool false)]
      /\ forall d : Doc,
          matched d (buildEsQuery q (modeName m)) = true
          <-> matched d primary = true /\ d !! js "isDeleted" = Some (JBool false))
  /\ (forall mode : JsString,
        exists primary,
          buildEsQuery q mode = BoolQuery [primary] [Term (js "isDeleted") (JBool false)]
          /\ (primary = Match (js "namePrimary") q None
              \/ primary = MatchPhrase (js "allText") q
              \/ primary = Match (js "allText") q (Some OpOr))
          /\ forall d : Doc,
              matched d (buildEsQuery q mode) = true
              <-> matched d primary = true /\ d !! js "isDeleted" = Some (JBool false))
  /\ (forall (mode : JsString) (d : Doc),
        d !! js "isDeleted" = Some (JBool true) ->
        matched d (buildEsQuery q mode) = false).
Proof.
  split; [|split].
  - intros m primary.
    assert (Hq : buildEsQuery q (modeName m)
                 = BoolQuery [primary] [Term (js "isDeleted") (JBool false)])
      by (destruct m; reflexivity).
    split; [exact Hq|]. intros d. rewrite Hq. apply filtered_iff.
  - intros mode. destruct (buildEsQuery_shape q mode) as (primary & Hq & Hkind).
    exists primary. split; [exact Hq|]. split; [exact Hkind|].
    intros d. rewrite Hq. apply filtered_iff.
  - intros mode d Hd. destruct (buildEsQuery_shape q mode) as (primary & Hq & _).
    destruct (matched d (buildEsQuery q mode)) eqn:Hm; [|reflexivity].
    rewrite Hq in Hm. apply filtered_iff in Hm as [_ Hm]. congruence.
Qed.

(** C2. The primary clause follows the mode: [free] gives a match query on
    [namePrimary] alone, with no operator set; [any] gives a match query on
    [allText] with the operator [or]; [phrase] gives a phrase query on
    [allText]. *)
Theorem buildEsQuery_primary (q : JsString) :
  buildEsQuery q (modeName Free)
  = BoolQuery [Match (js "namePrimary") q None] [Term (js "isDeleted") (JBool false)]
  /\ buildEsQuery q (modeName Any)
     = BoolQuery [Match (js "allText") q (Some OpOr)] [Term (js "isDeleted") (JBool false)]
  /\ buildEsQuery q (modeName Phrase)
     = BoolQuery [MatchPhrase (js "allText") q] [Term (js "isDeleted") (JBool false)]
  /\ (forall d : Doc,
        d !! js "isDeleted" = Some (JBool false) ->
        matched d (buildEsQuery q (modeName Free))
        = matchText (js "namePrimary") q None d
        /\ matched d (buildEsQuery q (modeName Any))
           = matchText (js "allText") q (Some OpOr) d
        /\ matched d (buildEsQuery q (modeName Phrase))
           = matchPhrase (js "allText") q d).
Proof.
  split; [reflexivity|]. split; [reflexivity|]. split; [reflexivity|].
  intros d Hd.
  change (buildEsQuery q (modeName Free))
    with (BoolQuery [Match (js "namePrimary") q None] [Term (js "isDeleted") (JBool false)]).
  change (buildEsQuery q (modeName Any))
    with (BoolQuery [Match (js "allText") q (Some OpOr)] [Term (js "isDeleted") (JBool false)]).
  change (buildEsQuery q (modeName Phrase))
    with (BoolQuery [MatchPhrase (js "allText") q] [Term (js "isDeleted") (JBool false)]).
  cbn [satisfies forallb] in *.
  rewrite Hd. cbn [termEq Bool.eqb]. rewrite !andb_true_r.
  repeat split; reflexivity.
Qed.

End QueryProperties.

(* ================================================================== *)
(** * The search and delete handlers *)
(* ================================================================== *)

Section HandlerProperties.
Context `{Engine} {W : Type} (client : Client W) (INDEX_NAME : JsString).




(** C9. A delete request whose identifier is missing, or empty once
    trimmed, is answered at once with status 400 and [Missing id], and
    the backend is left as it was: no update is attempted. *)
Theorem deleteHandler_missing_id (id : option JsString) (w : W) :
  (id = None \/ exists s, id = Some s /\ blank s) ->
  deleteHandler client INDEX_NAME id w
  = (Normal (statusJson 400 (ErrorBody (js "Missing id") None)), w).
Proof.
  intros Hid.
  assert (Htrim : trim (default [] id) = []).
  { destruct Hid as [-> | (s & -> & Hs)]; [reflexivity | now apply trim_blank]. }
  unfold deleteHandler, tryCatch. rewrite Htrim. reflexivity.
Qed.

End HandlerProperties.

(* ================================================================== *)
(** * Instances *)
(* ================================================================== *)

(** The properties above at the sample inputs. *)

Lemma blank_spaces : blank (js "  ").
Proof. repeat constructor. Defined.

Lemma buildEsQuery_not_deleted_witness :
  let d : Doc := {[ js "namePrimary" := JStr (js "Herzl"); js "isDeleted" := JBool true ]} in
  d !! js "isDeleted" = Some (JBool true)
  /\ satisfies (fun _ _ _ _ => true) (fun _ _ _ => true) d
       (buildEsQuery (js "Herzl") (js "free")) = false.
Proof.
  intros d.
  assert (Hd : d !! js "isDeleted" = Some (JBool true)) by (vm_compute; reflexivity).
  split; [exact Hd|].
  exact (proj2 (proj2 (buildEsQuery_not_deleted (fun _ _ _ _ => true) (fun _ _ _ => true)
                         (js "Herzl"))) (js "free") d Hd).
Defined.

Lemma coerce_total_witness :
  isCellValue (VStr (js "12.5"))
  /\ exists r : option Json,
       @coerce referenceEngine (VStr (js "12.5")) (Some (js "integer")) = Normal r
       /\ r <> Some JNull
       /\ (forall v, r = Some v -> isScalar v).
Proof.
  split; [exact I|].
  exact (proj1 (@coerce_total referenceEngine (VStr (js "12.5")) (Some (js "integer")) I)).
Defined.

Lemma coerce_integer_witness :
  isCellValue (VStr (js "12")) /\ absent (VStr (js "12")) = false
  /\ integerType (Some (js "long"))
  /\ exists n, @ToNumber (VStr (js "12")) = Normal n
       /\ (((exists z, isZ n z)
            /\ @coerce referenceEngine (VStr (js "12")) (Some (js "long"))
               = Normal (Some (JNum n)))
           \/ ((~ exists z, isZ n z)
               /\ @coerce referenceEngine (VStr (js "12")) (Some (js "long"))
                  = Normal None)).
Proof.
  split; [exact I|]. split; [reflexivity|]. split; [right; reflexivity|].
  exact (proj1 (@coerce_integer referenceEngine) (VStr (js "12")) (Some (js "long"))
           I eq_refl (or_intror eq_refl)).
Defined.

Lemma coerce_blank_integer_witness :
  integerType (Some (js "integer")) /\ blank (js "  ")
  /\ @coerce referenceEngine (VStr (js "  ")) (Some (js "integer"))
     = Normal (Some (JNum posZero)).
Proof.
  split; [left; reflexivity|]. split; [exact blank_spaces|].
  exact (proj1 (@coerce_blank_integer referenceEngine (Some (js "integer"))
                  (or_introl eq_refl)) (js "  ") blank_spaces).
Defined.

Lemma emptyRow_sample : emptyRow [VUndefined; VNull] [js "namePrimary"; js "code"].
Proof.
  intros i Hi. simpl in Hi.
  destruct i as [|[|i]]; [reflexivity | reflexivity | lia].
Defined.

Lemma rowToDoc_empty_row_witness :
  emptyRow [VUndefined; VNull] [js "namePrimary"; js "code"]
  /\ @rowToDoc referenceEngine [VUndefined; VNull] [js "namePrimary"; js "code"]
       (fieldTypes sampleConfig) [] = Normal None.
Proof.
  split; [exact emptyRow_sample|].
  exact (@rowToDoc_empty_row referenceEngine _ _ (fieldTypes sampleConfig) emptyRow_sample).
Defined.

Lemma emptyRow_missing : emptyRow [] [js "namePrimary"; js "code"].
Proof. intros i _. destruct i; reflexivity. Defined.

(** C3 as stated fails: with the default [isDeleted: false], a row whose
    every cell is missing maps to the document [{ isDeleted: false }]. *)
Lemma rowToDoc_empty_row_defaults :
  emptyRow [] [js "namePrimary"; js "code"]
  /\ @rowToDoc referenceEngine [] [js "namePrimary"; js "code"]
       (fieldTypes sampleConfig) [(js "isDeleted", JBool false)]
     = Normal (Some {[ js "isDeleted" := JBool false ]})
  /\ @rowToDoc referenceEngine [] [js "namePrimary"; js "code"]
       (fieldTypes sampleConfig) [(js "isDeleted", JBool false)]
     <> Normal None.
Proof.
  split; [exact emptyRow_missing|].
  assert (Hdoc : @rowToDoc referenceEngine []
                   [js "namePrimary"; js "code"] (fieldTypes sampleConfig)
                   [(js "isDeleted", JBool false)]
                 = Normal (Some {[ js "isDeleted" := JBool false ]}))
    by (vm_compute; reflexivity).
  split; [exact Hdoc|]. rewrite Hdoc. discriminate.
Defined.

Lemma mapsTo_sample : @mapsTo referenceEngine sampleConfig sampleRows sampleDocs.
Proof.
  repeat constructor; vm_compute; reflexivity.
Defined.

Lemma loadAndIndex_count_witness :
  (exists log',
      @loadAndIndex referenceEngine _ sampleClient
        (sampleFiles (sampleHeader :: sampleRows)) sampleConfig sampleRun []
      = (Normal 3%nat, log')
      /\ indexedDocs log' = sampleDocs
      /\ length sampleDocs = 3%nat)
  /\ @loadAndIndex referenceEngine _ sampleClient
       (sampleFiles [sampleHeader]) sampleConfig sampleRun []
     = (Throw (Error (js "No data rows in sheet")), []).
Proof.
  split.
  - exact (proj2 (proj1 (@loadAndIndex_count referenceEngine
                           (sampleFiles (sampleHeader :: sampleRows)) sampleConfig sampleRun)
                    sampleHeader sampleRows [] sampleDocs eq_refl
                    ltac:(discriminate) mapsTo_sample)
             noHits []).
  - exact (proj2 (@loadAndIndex_count referenceEngine
                    (sampleFiles [sampleHeader]) sampleConfig sampleRun)
             [sampleHeader] [] eq_refl ltac:(simpl; lia) _ sampleClient []).
Defined.


(** A search that finds nothing is answered with the empty list, a blank
    query with an object. *)
Example searchHandler_empty_answers :
  fst (@searchHandler referenceEngine _ sampleClient (js "streets")
         (Some (QString (js "Herzl"))) (Some (QString (js "phrase"))) [])
  = Normal {| status := 200; body := HitsArray [] |}
  /\ fst (@searchHandler referenceEngine _ sampleClient (js "streets")
            (Some (QString (js "  "))) (Some (QString (js "phrase"))) [])
     = Normal {| status := 200; body := HitsObject [] |}
  /\ snd (@searchHandler referenceEngine _ sampleClient (js "streets")
            (Some (QString (js "  "))) (Some (QString (js "phrase"))) [])
     = [].
Proof. repeat split; vm_compute; reflexivity. Qed.




Lemma deleteHandler_missing_id_witness :
  blank (js "  ")
  /\ @deleteHandler referenceEngine _ sampleClient (js "streets") (Some (js "  ")) []
     = (Normal (statusJson 400 (ErrorBody (js "Missing id") None)), []).
Proof.
  split; [exact blank_spaces|].
  exact (@deleteHandler_missing_id referenceEngine _ sampleClient (js "streets")
           (Some (js "  ")) []
           (or_intror (ex_intro _ (js "  ") (conj eq_refl blank_spaces)))).
Defined.

(* ================================================================== *)
(** * Further properties: trimming and coercion *)
(* ================================================================== *)

Lemma trimStart_split (s : JsString) :
  exists ws, s = ws ++ trimStart s /\ blank ws.
Proof.
  induction s as [|c s (ws & Hs & Hws)]; simpl.
  - exists []. split; [reflexivity | constructor].
  - destruct (isStrWhiteSpaceChar c) eqn:Hc.
    + exists (c :: ws). split; [simpl; congruence | now constructor].
    + exists []. split; [reflexivity | constructor].
Qed.

Lemma trimStart_head (s : JsString) (c : N) (rest : JsString) :
  trimStart s = c :: rest -> isStrWhiteSpaceChar c = false.
Proof.
  induction s as [|a s IH]; simpl; [discriminate|].
  destruct (isStrWhiteSpaceChar a) eqn:Ha; [exact IH|].
  intros [= <- _]. exact Ha.
Qed.

Lemma trimEnd_split (s : JsString) :
  exists ws, s = trimEnd s ++ ws /\ blank ws.
Proof.
  destruct (trimStart_split (rev s)) as (ws & Hs & Hws).
  exists (rev ws). split.
  - unfold trimEnd. rewrite <- rev_app_distr, <- Hs. now rewrite rev_involutive.
  - unfold blank. now apply Forall_rev.
Qed.

Lemma trimEnd_last (s : JsString) (c : N) (init : JsString) :
  trimEnd s = init ++ [c] -> isStrWhiteSpaceChar c = false.
Proof.
  unfold trimEnd. intros Hs.
  apply (f_equal (@rev N)) in Hs. rewrite rev_involutive, rev_app_distr in Hs.
  simpl in Hs. exact (trimStart_head _ _ _ Hs).
Qed.

(** What [trim] returns has no white space at either end. *)
Lemma trim_trimmed (s : JsString) : trimmed (trim s).
Proof.
  split.
  - intros c rest Hs. unfold trim in Hs.
    destruct (trimEnd_split (trimStart s)) as (ws & Hsplit & _).
    rewrite Hs in Hsplit. simpl in Hsplit.
    exact (trimStart_head _ _ _ Hsplit).
  - intros c init Hs. exact (trimEnd_last _ _ _ Hs).
Qed.

Lemma trimStart_id (s : JsString) :
  (forall c rest, s = c :: rest -> isStrWhiteSpaceChar c = false) -> trimStart s = s.
Proof.
  destruct s as [|c s]; [reflexivity|].
  intros Hs. simpl. now rewrite (Hs c s eq_refl).
Qed.

(** [trim] changes nothing in a text with no white space at either end. *)
Lemma trim_id (s : JsString) : trimmed s -> trim s = s.
Proof.
  intros [Hhead Hlast]. unfold trim. rewrite (trimStart_id s Hhead).
  unfold trimEnd. rewrite trimStart_id; [apply rev_involutive|].
  intros c rest Hrev. apply (Hlast c (rev rest)).
  apply (f_equal (@rev N)) in Hrev. rewrite rev_involutive in Hrev.
  exact Hrev.
Qed.

Lemma trim_nil_blank (s : JsString) : trim s = [] -> blank s.
Proof.
  intros Hs.
  destruct (trimStart_split s) as (ws1 & H1 & Hws1).
  destruct (trimEnd_split (trimStart s)) as (ws2 & H2 & Hws2).
  fold (trim s) in H2. rewrite Hs in H2. simpl in H2.
  rewrite H1, H2. now apply Forall_app.
Qed.

Section MoreCoercion.
Context `{Engine}.

Lemma coerce_text_eq (raw : JsValue) (type : option JsString) :
  absent raw = false -> textType type ->
  coerce raw type
  = Normal (if truthy (trim (ToString raw))
            then Some (JStr (trim (ToString raw))) else None).
Proof.
  unfold textType. intros Ha Ht.
  apply orb_false_iff in Ht as [Ht Hb].
  destruct raw; simpl in Ha; try discriminate; unfold coerce;
    rewrite Ht, Hb; destruct (truthy _); reflexivity.
Qed.

(** X1. With a declared type other than "integer", "long" and "boolean",
    what [coerce] stores for a present value is a text that is not empty,
    has no white space at either end, and is left as it is by a second
    trim; a string cell is stored as its trimmed text, and is dropped
    exactly when it is empty or white space only. *)
Theorem coerce_text_stored (type : option JsString) :
  textType type ->
  (forall (raw : JsValue) (v : Json),
      absent raw = false -> coerce raw type = Normal (Some v) ->
      exists t, v = JStr t /\ t <> [] /\ trimmed t /\ trim t = t)
  /\ (forall s : JsString,
        (blank s <-> coerce (VStr s) type = Normal None)
        /\ (~ blank s -> coerce (VStr s) type = Normal (Some (JStr (trim s))))).
Proof.
  intros Ht. split.
  - intros raw v Ha Hv. rewrite (coerce_text_eq raw type Ha Ht) in Hv.
    destruct (trim (ToString raw)) as [|c t] eqn:Htrim; simpl in Hv; [discriminate|].
    injection Hv as <-. exists (c :: t). split; [reflexivity|].
    split; [discriminate|].
    assert (Htr : trimmed (c :: t)) by (rewrite <- Htrim; apply trim_trimmed).
    split; [exact Htr | now apply trim_id].
  - intros s. rewrite (coerce_text_eq (VStr s) type eq_refl Ht).
    cbn [ToString]. split; [split|].
    + intros Hs. now rewrite (trim_blank s Hs).
    + destruct (trim s) eqn:Htrim; simpl; [|discriminate].
      intros _. now apply trim_nil_blank.
    + intros Hs. destruct (trim s) eqn:Htrim; simpl; [|reflexivity].
      exfalso. apply Hs. now apply trim_nil_blank.
Qed.

(** X2. With the declared type "boolean", a present value is never
    dropped: [coerce] stores a boolean for it, and for a boolean that
    boolean itself. *)
Theorem coerce_boolean_present (raw : JsValue) :
  absent raw = false ->
  exists b, coerce raw (Some (js "boolean")) = Normal (Some (JBool b))
            /\ (forall b', raw = VBool b' -> b = b').
Proof.
  intros Ha.
  destruct raw; simpl in Ha; try discriminate; eexists;
    (split; [reflexivity | intros b' Hb; try discriminate Hb]).
  now injection Hb.
Qed.

End MoreCoercion.

(* ================================================================== *)
(** * Further properties: the row-to-document mapper *)
(* ================================================================== *)

Lemma assign_other (doc : Doc) (name key : JsString) (v : Json) :
  key <> name -> assign doc name v !! key = doc !! key.
Proof.
  intros Hk. unfold assign. destruct (streq name (js "__proto__")); [reflexivity|].
  now apply lookup_insert_ne.
Qed.

Lemma assign_same (doc : Doc) (name : JsString) (v : Json) :
  name <> js "__proto__" -> assign doc name v !! name = Some v.
Proof.
  intros Hn. unfold assign, streq. rewrite (bool_decide_eq_false_2 _ Hn).
  apply lookup_insert_eq.
Qed.

Lemma assign_is_Some (doc : Doc) (name key : JsString) (v : Json) :
  is_Some (assign doc name v !! key) -> is_Some (doc !! key) \/ key = name.
Proof.
  destruct (decide (key = name)) as [->|Hk]; [now right|].
  rewrite (assign_other doc name key v Hk). now left.
Qed.

Lemma cell_isCellValue (row : list JsValue) (i : nat) :
  Forall isCellValue row -> isCellValue (cell row i).
Proof.
  intros Hrow. unfold cell. destruct (row !! i) as [x|] eqn:Hx; simpl; [|exact I].
  rewrite Forall_forall in Hrow. apply Hrow.
  exact (list_elem_of_lookup_2 _ _ _ Hx).
Qed.

Section MoreMapper.
Context `{Engine}.

Lemma coerce_cell_normal (raw : JsValue) (type : option JsString) :
  isCellValue raw -> exists r, coerce raw type = Normal r.
Proof.
  intros Hc.
  destruct raw as [| |[]|n|s|d]; try contradiction; unfold coerce;
    destruct (typeIs type "integer" || typeIs type "long");
    destruct (typeIs type "boolean"); simpl; eauto;
    destruct (truthy _); eauto.
Qed.

Lemma fillFields_cells (row row' : list JsValue) (types : gmap JsString JsString)
    (names : list JsString) :
  forall (i : nat) (doc : Doc),
    (forall j : nat, (j < length names)%nat -> cell row (i + j) = cell row' (i + j)) ->
    fillFields row types names i doc = fillFields row' types names i doc.
Proof.
  induction names as [|name rest IH]; intros i doc Hcells; simpl; [reflexivity|].
  assert (Hc : cell row i = cell row' i).
  { rewrite <- (Nat.add_0_r i). apply Hcells. simpl. lia. }
  rewrite Hc.
  destruct (coerce (cell row' i) (types !! name)) as [value|e]; simpl; [|reflexivity].
  apply IH. intros j Hj. replace (S i + j)%nat with (i + S j)%nat by lia.
  apply Hcells. simpl. lia.
Qed.

Lemma fillFields_normal (row : list JsValue) (types : gmap JsString JsString)
    (names : list JsString) :
  Forall isCellValue row ->
  forall (i : nat) (doc : Doc), exists doc', fillFields row types names i doc = Normal doc'.
Proof.
  intros Hrow. induction names as [|name rest IH]; intros i doc; simpl; [eauto|].
  destruct (coerce_cell_normal (cell row i) (types !! name)
              (cell_isCellValue row i Hrow)) as [value ->].
  simpl. apply IH.
Qed.

(** The first loop touches the declared fields only. *)
Lemma fillFields_other (row : list JsValue) (types : gmap JsString JsString)
    (names : list JsString) (key : JsString) :
  key ∉ names ->
  forall (i : nat) (doc doc' : Doc),
    fillFields row types names i doc = Normal doc' -> doc' !! key = doc !! key.
Proof.
  induction names as [|name rest IH]; intros Hkey i doc doc'; simpl.
  - now intros [= <-].
  - apply not_elem_of_cons in Hkey as [Hne Hrest].
    destruct (coerce (cell row i) (types !! name)) as [value|e]; simpl; [|discriminate].
    intros Hfill. rewrite (IH Hrest _ _ _ Hfill).
    destruct value; [now apply assign_other | reflexivity].
Qed.

Lemma fillFields_is_Some (row : list JsValue) (types : gmap JsString JsString)
    (names : list JsString) (key : JsString) :
  forall (i : nat) (doc doc' : Doc),
    fillFields row types names i doc = Normal doc' ->
    is_Some (doc' !! key) -> is_Some (doc !! key) \/ key ∈ names.
Proof.
  induction names as [|name rest IH]; intros i doc doc'; simpl.
  - intros [= <-]. now left.
  - destruct (coerce (cell row i) (types !! name)) as [value|e]; simpl; [|discriminate].
    intros Hfill Hsome.
    destruct (IH _ _ _ Hfill Hsome) as [Hdoc|Hin]; [|right; now right].
    destruct value as [v|]; [|now left].
    destruct (assign_is_Some _ _ _ _ Hdoc) as [?| ->]; [now left | right; left].
Qed.

(** A field whose cell coerces to a value holds that value after the
    first loop; one whose cell coerces to nothing is left as it was. *)
Lemma fillFields_field (row : list JsValue) (types : gmap JsString JsString)
    (names : list JsString) :
  NoDup names ->
  forall (j i : nat) (name : JsString) (doc doc' : Doc) (r : option Json),
    names !! j = Some name ->
    coerce (cell row (i + j)) (types !! name) = Normal r ->
    fillFields row types names i doc = Normal doc' ->
    doc' !! name
    = match r with
      | Some v => if streq name (js "__proto__") then doc !! name else Some v
      | None => doc !! name
      end.
Proof.
  induction names as [|n rest IH]; intros Hnd j i name doc doc' r Hj Hr; simpl;
    [discriminate|].
  apply NoDup_cons in Hnd as [Hn Hnd].
  destruct j as [|j]; simpl in Hj.
  - injection Hj as ->. rewrite Nat.add_0_r in Hr. rewrite Hr. simpl.
    intros Hfill. rewrite (fillFields_other _ _ _ _ Hn _ _ _ Hfill).
    destruct r as [v|]; [|reflexivity].
    unfold assign. destruct (streq name (js "__proto__")); [reflexivity|].
    apply lookup_insert_eq.
  - destruct (coerce (cell row i) (types !! n)) as [value|e]; simpl; [|discriminate].
    intros Hfill.
    assert (Hne : name <> n).
    { intros ->. apply Hn. exact (list_elem_of_lookup_2 _ _ _ Hj). }
    replace (i + S j)%nat with (S i + j)%nat in Hr by lia.
    rewrite (IH Hnd j (S i) name _ doc' r Hj Hr Hfill).
    destruct value as [v|]; [|reflexivity].
    rewrite (assign_other doc n name v Hne). reflexivity.
Qed.

(** The second loop keeps what is there, adds keys of the defaults only,
    and gives a key that is not there its default. *)
Lemma applyDefaults_keep (entries : list (JsString * Json)) (key : JsString) (v : Json) :
  forall doc : Doc, doc !! key = Some v -> applyDefaults entries doc !! key = Some v.
Proof.
  induction entries as [|[k x] rest IH]; intros doc Hdoc; simpl; [exact Hdoc|].
  apply IH. destruct (isUndefinedAt doc k) eqn:Hu; [|exact Hdoc].
  rewrite lookup_insert_ne; [exact Hdoc|].
  intros ->. unfold isUndefinedAt in Hu. now rewrite Hdoc in Hu.
Qed.

Lemma applyDefaults_is_Some (entries : list (JsString * Json)) (key : JsString) :
  forall doc : Doc,
    is_Some (applyDefaults entries doc !! key) ->
    is_Some (doc !! key) \/ key ∈ entries.*1.
Proof.
  induction entries as [|[k x] rest IH]; intros doc; simpl; [now left|].
  intros Hsome. destruct (IH _ Hsome) as [Hdoc|Hin]; [|right; now right].
  destruct (isUndefinedAt doc k); [|now left].
  apply lookup_insert_is_Some in Hdoc as [<-|[_ Hdoc]]; [right; left | now left].
Qed.

Lemma applyDefaults_fill (entries : list (JsString * Json)) (key : JsString)
    (value : Json) :
  NoDup entries.*1 -> (key, value) ∈ entries -> key ∉ objectPrototypeNames ->
  forall doc : Doc, doc !! key = None -> applyDefaults entries doc !! key = Some value.
Proof.
  induction entries as [|[k x] rest IH]; intros Hnd Hin Hproto doc Hdoc; simpl.
  - inversion Hin.
  - simpl in Hnd. apply NoDup_cons in Hnd as [Hk Hnd].
    apply elem_of_cons in Hin as [[= <- <-]|Hin].
    + unfold isUndefinedAt. rewrite Hdoc.
      rewrite (bool_decide_eq_false_2 _ Hproto). simpl.
      apply applyDefaults_keep, lookup_insert_eq.
    + assert (Hne : k <> key).
      { intros ->. apply Hk. apply list_elem_of_fmap. now exists (key, value). }
      apply (IH Hnd Hin Hproto).
      destruct (isUndefinedAt doc k); [|exact Hdoc].
      now rewrite lookup_insert_ne.
Qed.

End MoreMapper.

Section MapperTheorems.
Context `{Engine}.

Lemma rowToDoc_inv (row : list JsValue) (names : list JsString)
    (types : gmap JsString JsString) (entries : list (JsString * Json))
    (r : option Doc) :
  rowToDoc row names types entries = Normal r ->
  exists filled : Doc,
    fillFields row types names 0 ∅ = Normal filled
    /\ r = (if bool_decide (0 < size (applyDefaults entries filled))%nat
            then Some (applyDefaults entries filled) else None).
Proof.
  unfold rowToDoc.
  destruct (fillFields row types names 0 ∅) as [filled|e]; simpl; [|discriminate].
  intros [= <-]. now exists filled.
Qed.

Lemma rowToDoc_kept (row : list JsValue) (names : list JsString)
    (types : gmap JsString JsString) (entries : list (JsString * Json))
    (r : option Doc) (filled : Doc) (key : JsString) (v : Json) :
  r = (if bool_decide (0 < size (applyDefaults entries filled))%nat
       then Some (applyDefaults entries filled) else None) ->
  applyDefaults entries filled !! key = Some v ->
  exists d, r = Some d /\ d !! key = Some v.
Proof.
  intros -> Hkey. exists (applyDefaults entries filled).
  split; [|exact Hkey].
  rewrite bool_decide_eq_true_2; [reflexivity|].
  assert (size (applyDefaults entries filled) <> 0)%nat
    by (apply (map_size_ne_0_lookup_2 _ key); eauto).
  lia.
Qed.

(** X3. On a row whose cells are strings, numbers, booleans, [null] or
    missing, [rowToDoc] never throws, whatever the schema and the
    defaults. *)
Theorem rowToDoc_never_throws (row : list JsValue) (names : list JsString)
    (types : gmap JsString JsString) (entries : list (JsString * Json)) :
  Forall isCellValue row ->
  exists r, rowToDoc row names types entries = Normal r.
Proof.
  intros Hrow. unfold rowToDoc.
  destruct (fillFields_normal row types names Hrow 0%nat ∅) as [filled ->].
  simpl. eauto.
Qed.

(** X4. A document that [rowToDoc] returns has at least one field, and
    every field of it is a declared field or a key of the defaults. *)
Theorem rowToDoc_fields (row : list JsValue) (names : list JsString)
    (types : gmap JsString JsString) (entries : list (JsString * Json)) (d : Doc) :
  rowToDoc row names types entries = Normal (Some d) ->
  d <> ∅
  /\ forall key, is_Some (d !! key) -> key ∈ names \/ key ∈ entries.*1.
Proof.
  intros Hdoc. destruct (rowToDoc_inv _ _ _ _ _ Hdoc) as (filled & Hfill & Hr).
  destruct (bool_decide (0 < size (applyDefaults entries filled))%nat) eqn:Hsize;
    [|discriminate].
  injection Hr as ->. apply bool_decide_eq_true_1 in Hsize. split.
  - apply map_size_non_empty_iff. lia.
  - intros key Hkey.
    destruct (applyDefaults_is_Some _ _ _ Hkey) as [Hfilled|Hin]; [|now right].
    destruct (fillFields_is_Some _ _ _ _ _ _ _ Hfill Hfilled) as [Hempty|Hin];
      [|now left].
    rewrite lookup_empty in Hempty. now destruct Hempty.
Qed.

(** X5. With distinct field names, a field whose cell coerces to a value
    holds exactly that value in the document, whatever the defaults say
    for it, and the row is not discarded; a field whose cell coerces to
    nothing and that has no default is missing from the document. *)
Theorem rowToDoc_field_value (row : list JsValue) (names : list JsString)
    (types : gmap JsString JsString) (entries : list (JsString * Json))
    (j : nat) (name : JsString) (r : option Doc) :
  NoDup names -> names !! j = Some name -> name <> js "__proto__" ->
  rowToDoc row names types entries = Normal r ->
  (forall v, coerce (cell row j) (types !! name) = Normal (Some v) ->
     exists d, r = Some d /\ d !! name = Some v)
  /\ (forall d, coerce (cell row j) (types !! name) = Normal None ->
        name ∉ entries.*1 -> r = Some d -> d !! name = None).
Proof.
  intros Hnd Hj Hname Hdoc.
  destruct (rowToDoc_inv _ _ _ _ _ Hdoc) as (filled & Hfill & Hr).
  split.
  - intros v Hv.
    apply (rowToDoc_kept row names types entries r filled name v Hr).
    apply applyDefaults_keep.
    rewrite (fillFields_field row types names Hnd j 0%nat name ∅ filled (Some v) Hj Hv Hfill).
    unfold streq. now rewrite (bool_decide_eq_false_2 _ Hname).
  - intros d Hv Hno Hd. rewrite Hd in Hr.
    destruct (bool_decide _); [|discriminate]. injection Hr as ->.
    destruct (applyDefaults entries filled !! name) as [x|] eqn:Hx; [|reflexivity].
    destruct (applyDefaults_is_Some entries name filled) as [Hfilled|Hin];
      [rewrite Hx; eauto | | contradiction].
    rewrite (fillFields_field row types names Hnd j 0%nat name ∅ filled None Hj Hv Hfill)
      in Hfilled.
    rewrite lookup_empty in Hfilled. now destruct Hfilled.
Qed.

(** X6. With distinct keys in the defaults, a default whose key is no
    declared field (and no member of [Object.prototype]) is in every
    document: the row is not discarded and holds the default value. *)
Theorem rowToDoc_default_value (row : list JsValue) (names : list JsString)
    (types : gmap JsString JsString) (entries : list (JsString * Json))
    (key : JsString) (value : Json) (r : option Doc) :
  NoDup entries.*1 -> (key, value) ∈ entries ->
  key ∉ names -> key ∉ objectPrototypeNames ->
  rowToDoc row names types entries = Normal r ->
  exists d, r = Some d /\ d !! key = Some value.
Proof.
  intros Hnd Hin Hkey Hproto Hdoc.
  destruct (rowToDoc_inv _ _ _ _ _ Hdoc) as (filled & Hfill & Hr).
  apply (rowToDoc_kept row names types entries r filled key value Hr).
  apply (applyDefaults_fill entries key value Hnd Hin Hproto).
  rewrite (fillFields_other _ _ _ _ Hkey _ _ _ Hfill). apply lookup_empty.
Qed.

(** X7. Only the cells under the declared fields count: two rows that
    agree on them map alike, so cells past the last field are ignored
    and a missing cell at the end is like an [undefined] one. *)
Theorem rowToDoc_cells (names : list JsString) (types : gmap JsString JsString)
    (entries : list (JsString * Json)) :
  (forall row row' : list JsValue,
      (forall j : nat, (j < length names)%nat -> cell row j = cell row' j) ->
      rowToDoc row names types entries = rowToDoc row' names types entries)
  /\ (forall row : list JsValue,
        rowToDoc (take (length names) row) names types entries
        = rowToDoc row names types entries)
  /\ (forall row : list JsValue,
        rowToDoc (row ++ [VUndefined]) names types entries
        = rowToDoc row names types entries).
Proof.
  assert (Hext : forall row row' : list JsValue,
             (forall j : nat, (j < length names)%nat -> cell row j = cell row' j) ->
             rowToDoc row names types entries = rowToDoc row' names types entries).
  { intros row row' Hcells. unfold rowToDoc.
    now rewrite (fillFields_cells row row' types names 0%nat ∅ Hcells). }
  split; [exact Hext|]. split.
  - intros row. apply Hext. intros j Hj. unfold cell.
    now rewrite lookup_take_lt.
  - intros row. apply Hext. intros j _. unfold cell.
    destruct (decide (j < length row)%nat) as [Hlt|Hge].
    + now rewrite lookup_app_l.
    + rewrite (lookup_ge_None_2 row j) by lia.
      destruct (decide (j = length row)) as [->|Hne].
      * now rewrite list_lookup_middle.
      * rewrite lookup_ge_None_2; [reflexivity|]. rewrite length_app. simpl. lia.
Qed.

End MapperTheorems.

(* ================================================================== *)
(** * Further properties: the bulk loader *)
(* ================================================================== *)

Lemma sources_batchRequest (idx : JsString) (batch : list Doc) :
  sources (operations (batchRequest idx batch)) = batch.
Proof. apply sources_batch. Qed.

Lemma docCount_batchRequest (idx : JsString) (batch : list Doc) :
  docCount (batchRequest idx batch) = length batch.
Proof. unfold docCount, batchRequest. cbn [operations]. now rewrite sources_batch. Qed.

Section MoreLoader.
Context `{Engine}.
Variable answer : SearchRequest -> SearchResponse.
Variable failure : list Call -> Call -> option Thrown.

(** On a recording client a batch that is not empty is one bulk call,
    which ends as the client decides. *)
Lemma flushBatch_recording (batch : list Doc) (idx : JsString) (log : list Call) :
  batch <> [] ->
  flushBatch (recording answer failure) batch idx log
  = (match failure log (CallBulk (batchRequest idx batch)) with
     | Some e => Throw e
     | None => Normal tt
     end, log ++ [CallBulk (batchRequest idx batch)]).
Proof.
  destruct batch as [|d batch]; [contradiction|]. intros _.
  unfold flushBatch, recording, batchRequest. cbn [bulk].
  destruct (failure log _); reflexivity.
Qed.

(** The loop of the loader, from any point of it. *)
Lemma indexRows_run (config : LoaderConfig) (rc : RunConfig)
    (rows : list (list JsValue)) (results : list (option Doc)) :
  rowResults config rows results ->
  forall (batch : list Doc) (indexed : nat) (log : list Call),
  exists reqs,
    loaderRun failure log (batch ++ kept results) indexed
      (indexRows (recording answer failure) config rc rows batch indexed log) reqs
    /\ Forall (fun r => exists docs, docs <> [] /\ r = batchRequest (indexName rc) docs) reqs
    /\ (1 <= batchSize rc -> Z.of_nat (length batch) < batchSize rc ->
        Forall (fun r => Z.of_nat (docCount r) = batchSize rc) (removelast reqs)
        /\ Forall (fun r => 1 <= Z.of_nat (docCount r) <= batchSize rc) reqs).
Proof.
  induction 1 as [|row r0 rows results Hrow _ IH]; intros batch indexed log.
  - cbn [indexRows]. unfold kept. cbn [omap]. rewrite app_nil_r.
    destruct batch as [|d batch].
    + exists []. unfold loaderRun, bind, flushBatch, ret. cbn.
      rewrite app_nil_r. repeat split; try constructor; try lia; try reflexivity.
    + exists [batchRequest (indexName rc) (d :: batch)].
      unfold bind. rewrite flushBatch_recording by discriminate.
      split; [|split].
      * unfold loaderRun.
        destruct (failure log _) as [e|] eqn:Hf; cbn [fst snd List.map concat];
          rewrite app_nil_r, sources_batchRequest.
        -- split; [reflexivity|]. split; [reflexivity|]. eauto.
        -- unfold ret. cbn [fst snd]. repeat split; reflexivity.
      * constructor; [|constructor]. exists (d :: batch). split; [discriminate|reflexivity].
      * intros Hb Hlen. cbn [removelast]. split; [constructor|].
        constructor; [|constructor]. rewrite docCount_batchRequest.
        simpl length in *. lia.
  - cbn [indexRows]. unfold bind at 1, lift. rewrite Hrow.
    destruct r0 as [d|].
    + replace (batch ++ kept (Some d :: results))
        with ((batch ++ [d]) ++ kept results)
        by (unfold kept; cbn [omap]; now rewrite <- app_assoc).
      destruct (batchSize rc <=? Z.of_nat (length (batch ++ [d]))) eqn:Hfull.
      * apply Z.leb_le in Hfull.
        assert (Hne : batch ++ [d] <> []) by (destruct batch; discriminate).
        unfold bind. rewrite (flushBatch_recording _ _ _ Hne).
        set (r := batchRequest (indexName rc) (batch ++ [d])).
        destruct (failure log (CallBulk r)) as [e|] eqn:Hf.
        -- exists [r]. split; [|split].
           ++ unfold loaderRun. cbn [fst snd List.map concat]. rewrite app_nil_r.
              subst r. rewrite sources_batchRequest.
              split; [reflexivity|]. split; [now apply prefix_app_r|]. eauto.
           ++ constructor; [|constructor]. exists (batch ++ [d]). now split.
           ++ intros Hb Hlen. cbn [removelast]. split; [constructor|].
              constructor; [|constructor]. subst r. rewrite docCount_batchRequest.
              rewrite length_app in *. simpl in *. lia.
        -- destruct (IH [] (indexed + length (batch ++ [d]))%nat (log ++ [CallBulk r]))
             as (reqs & (Hlog & Hpre & Hout) & Hshape & Hbound).
           exists (r :: reqs). split; [|split].
           ++ unfold loaderRun. cbn [List.map concat]. split; [|split].
              ** rewrite Hlog. now rewrite <- app_assoc.
              ** subst r. rewrite sources_batchRequest.
                 now apply prefix_app.
              ** destruct (fst (indexRows _ _ _ _ _ _ _)) as [n|e].
                 --- destruct Hout as [-> Hall]. split.
                     +++ rewrite !length_app. simpl. lia.
                     +++ subst r. rewrite sources_batchRequest.
                         simpl in Hall. now rewrite Hall.
                 --- exact Hout.
           ++ constructor; [|exact Hshape]. exists (batch ++ [d]). now split.
           ++ intros Hb Hlen.
              assert (Hr : Z.of_nat (docCount r) = batchSize rc).
              { subst r. rewrite docCount_batchRequest.
                rewrite length_app in *. simpl in *. lia. }
              destruct (Hbound Hb) as [Hfulls Hsizes]; [simpl; lia|].
              split.
              ** destruct reqs as [|r' reqs]; [constructor|].
                 change (removelast (r :: r' :: reqs)) with (r :: removelast (r' :: reqs)).
                 now constructor.
              ** constructor; [lia | exact Hsizes].
      * apply Z.leb_gt in Hfull.
        destruct (IH (batch ++ [d]) indexed log) as (reqs & Hrun & Hshape & Hbound).
        exists reqs. split; [|split; [exact Hshape|]].
        -- destruct Hrun as (Hlog & Hpre & Hout).
           split; [exact Hlog|]. split; [exact Hpre|].
           destruct (fst (indexRows _ _ _ _ _ _ _)) as [n|e]; [|exact Hout].
           destruct Hout as [-> Hall]. split; [|exact Hall].
           rewrite !length_app. simpl. lia.
        -- intros Hb _. apply Hbound; [exact Hb | lia].
    + replace (kept (None :: results)) with (kept results) by reflexivity.
      apply IH.
Qed.

End MoreLoader.

Lemma indexedDocs_bulks (log : list Call) (reqs : list BulkRequest) :
  indexedDocs (log ++ List.map CallBulk reqs)
  = indexedDocs log ++ concat (List.map (fun r => sources (operations r)) reqs).
Proof.
  revert log. induction reqs as [|r reqs IH]; intros log; simpl.
  - now rewrite !app_nil_r.
  - replace (log ++ CallBulk r :: List.map CallBulk reqs)
      with ((log ++ [CallBulk r]) ++ List.map CallBulk reqs)
      by (now rewrite <- app_assoc).
    rewrite IH, indexedDocs_bulk. now rewrite <- app_assoc.
Qed.

Lemma bulkCalls_bulks (log : list Call) (reqs : list BulkRequest) :
  bulkCalls (log ++ List.map CallBulk reqs) = bulkCalls log ++ reqs.
Proof.
  unfold bulkCalls. rewrite omap_app. f_equal.
  induction reqs as [|r reqs IH]; [reflexivity|].
  simpl. f_equal. exact IH.
Qed.

(** In the request for a batch, document [i] is line [2 i + 1] and the
    line before it is an index action into the index. *)
Lemma batchRequest_lines (idx : JsString) (batch : list Doc) (i : nat) (d : Doc) :
  batch !! i = Some d ->
  operations (batchRequest idx batch) !! (2 * i)%nat = Some (IndexAction idx)
  /\ operations (batchRequest idx batch) !! (2 * i + 1)%nat = Some (Source d).
Proof.
  revert i. induction batch as [|d0 batch IH]; intros i Hi; [discriminate|].
  destruct i as [|i]; simpl in Hi.
  - injection Hi as ->. split; reflexivity.
  - destruct (IH i Hi) as [Ha Hs].
    replace (2 * S i)%nat with (S (S (2 * i))) by lia.
    replace (S (S (2 * i)) + 1)%nat with (S (S (2 * i + 1))) by lia.
    split; [exact Ha | exact Hs].
Qed.

Section LoaderTheorems.
Context `{Engine}.

Lemma rowResults_nonempty (config : LoaderConfig) (rows : list (list JsValue))
    (results : list (option Doc)) :
  rowResults config rows results -> Forall (fun d : Doc => d <> ∅) (kept results).
Proof.
  induction 1 as [|row r rows results Hrow _ IH]; [constructor|].
  destruct r as [d|]; [|exact IH].
  unfold kept. cbn [omap]. constructor; [|exact IH].
  destruct (rowToDoc_inv _ _ _ _ _ Hrow) as (filled & _ & Hr).
  destruct (bool_decide (0 < size (applyDefaults (defaults config) filled))%nat) eqn:Hsize;
    [|discriminate].
  injection Hr as ->. apply bool_decide_eq_true_1 in Hsize.
  apply map_size_non_empty_iff. lia.
Qed.

(** X8. An empty batch is flushed without any call on the client. A
    batch that is not empty is flushed by one bulk call, without refresh,
    whose body has two lines for each document, in the order of the
    batch: an index action into the index, and the document. *)
Theorem flushBatch_request {W : Type} (client : Client W) (idx : JsString) (w : W) :
  flushBatch client [] idx w = (Normal tt, w)
  /\ forall batch : list Doc, batch <> [] ->
       flushBatch client batch idx w = bulk client (batchRequest idx batch) w
       /\ bulk_refresh (batchRequest idx batch) = false
       /\ length (operations (batchRequest idx batch)) = (2 * length batch)%nat
       /\ forall (i : nat) (d : Doc), batch !! i = Some d ->
            operations (batchRequest idx batch) !! (2 * i)%nat = Some (IndexAction idx)
            /\ operations (batchRequest idx batch) !! (2 * i + 1)%nat = Some (Source d).
Proof.
  split; [reflexivity|]. intros batch Hne.
  split; [destruct batch; [contradiction | reflexivity]|].
  split; [reflexivity|]. split.
  - unfold batchRequest. cbn [operations].
    clear Hne. induction batch as [|d batch IH]; simpl; [reflexivity|].
    rewrite IH. lia.
  - intros i d. apply batchRequest_lines.
Qed.

(** X9. When no row makes the mapper throw and every bulk call succeeds,
    the loader returns the number of rows that were not discarded, and
    what it sends to the backend is the documents of those rows, in the
    order of the rows, none of them empty: a discarded row is neither
    sent nor counted. *)
Theorem loadAndIndex_discards (fs : Files) (config : LoaderConfig) (rc : RunConfig)
    (header : list JsValue) (rows : list (list JsValue))
    (others : list (list (list JsValue))) (results : list (option Doc))
    (answer : SearchRequest -> SearchResponse) (log : list Call) :
  fs (excelPath rc) = Some (Workbook ((header :: rows) :: others)) ->
  rows <> [] ->
  rowResults config rows results ->
  exists log',
    loadAndIndex (recording answer reliable) fs config rc log
    = (Normal (length (kept results)), log')
    /\ indexedDocs log' = indexedDocs log ++ kept results
    /\ Forall (fun d : Doc => d <> ∅) (kept results).
Proof.
  intros Hfs Hrows Hres.
  unfold loadAndIndex, bind, lift.
  rewrite (loadExcelRows_data fs _ header rows others Hfs Hrows).
  destruct (indexRows_run answer reliable config rc rows results Hres [] 0%nat log)
    as (reqs & (Hlog & _ & Hout) & _).
  destruct (indexRows (recording answer reliable) config rc rows [] 0 log)
    as [[n|e] log'] eqn:Hrun; cbn [fst snd] in *.
  - destruct Hout as [-> Hall]. exists log'. split; [reflexivity|].
    split; [|now apply (rowResults_nonempty config rows)].
    rewrite Hlog, indexedDocs_bulks. now rewrite Hall.
  - destruct Hout as (l & r & _ & Hfail). discriminate Hfail.
Qed.

(** X10. With a batch size of at least 1, whatever the client does,
    every bulk call of the loader carries at least one document and at
    most the batch size, and every bulk call but the last carries exactly
    the batch size; each is a request for a batch into the configured
    index. *)
Theorem loadAndIndex_batches (fs : Files) (config : LoaderConfig) (rc : RunConfig)
    (header : list JsValue) (rows : list (list JsValue))
    (others : list (list (list JsValue))) (results : list (option Doc))
    (answer : SearchRequest -> SearchResponse)
    (failure : list Call -> Call -> option Thrown) (log : list Call) :
  fs (excelPath rc) = Some (Workbook ((header :: rows) :: others)) ->
  rows <> [] ->
  rowResults config rows results ->
  1 <= batchSize rc ->
  exists reqs,
    bulkCalls (snd (loadAndIndex (recording answer failure) fs config rc log))
    = bulkCalls log ++ reqs
    /\ Forall (fun r => 1 <= Z.of_nat (docCount r) <= batchSize rc) reqs
    /\ Forall (fun r => Z.of_nat (docCount r) = batchSize rc) (removelast reqs)
    /\ Forall (fun r => exists docs, r = batchRequest (indexName rc) docs) reqs.
Proof.
  intros Hfs Hrows Hres Hb.
  unfold loadAndIndex, bind, lift.
  rewrite (loadExcelRows_data fs _ header rows others Hfs Hrows).
  destruct (indexRows_run answer failure config rc rows results Hres [] 0%nat log)
    as (reqs & (Hlog & _) & Hshape & Hbound).
  destruct (Hbound Hb) as [Hfull Hsizes]; [simpl; lia|].
  exists reqs.
  destruct (indexRows (recording answer failure) config rc rows [] 0 log)
    as [[n|e] log']; cbn [fst snd] in *;
    (split; [rewrite Hlog; apply bulkCalls_bulks|]);
    (split; [exact Hsizes|]); (split; [exact Hfull|]);
    (eapply Forall_impl; [exact Hshape|]); intros r (docs & _ & ->); eauto.
Qed.

(** X11. When no row makes the mapper throw, whatever the client does:
    the loader only makes bulk calls, and the documents it sends are the
    first ones of the documents of the rows, in order; when it ends
    normally it has sent them all and returns their number; when it
    throws, what it throws is what the client threw in the last call
    made, a bulk call, and the calls made before it stay made. *)
Theorem loadAndIndex_bulk_failure (fs : Files) (config : LoaderConfig) (rc : RunConfig)
    (header : list JsValue) (rows : list (list JsValue))
    (others : list (list (list JsValue))) (results : list (option Doc))
    (answer : SearchRequest -> SearchResponse)
    (failure : list Call -> Call -> option Thrown) (log : list Call) :
  fs (excelPath rc) = Some (Workbook ((header :: rows) :: others)) ->
  rows <> [] ->
  rowResults config rows results ->
  exists (reqs : list BulkRequest) (sent : list Doc),
    snd (loadAndIndex (recording answer failure) fs config rc log)
    = log ++ List.map CallBulk reqs
    /\ indexedDocs (snd (loadAndIndex (recording answer failure) fs config rc log))
       = indexedDocs log ++ sent
    /\ sent `prefix_of` kept results
    /\ (forall n, fst (loadAndIndex (recording answer failure) fs config rc log) = Normal n ->
          n = length (kept results) /\ sent = kept results)
    /\ (forall e, fst (loadAndIndex (recording answer failure) fs config rc log) = Throw e ->
          exists l r,
            snd (loadAndIndex (recording answer failure) fs config rc log)
            = l ++ [CallBulk r]
            /\ failure l (CallBulk r) = Some e).
Proof.
  intros Hfs Hrows Hres.
  unfold loadAndIndex, bind, lift.
  rewrite (loadExcelRows_data fs _ header rows others Hfs Hrows).
  destruct (indexRows_run answer failure config rc rows results Hres [] 0%nat log)
    as (reqs & (Hlog & Hpre & Hout) & _).
  exists reqs, (concat (List.map (fun r => sources (operations r)) reqs)).
  destruct (indexRows (recording answer failure) config rc rows [] 0 log)
    as [[n|e] log']; cbn [fst snd] in *.
  - split; [exact Hlog|]. split; [rewrite Hlog; apply indexedDocs_bulks|].
    split; [exact Hpre|]. split; [|discriminate].
    intros n' [= <-]. exact Hout.
  - split; [exact Hlog|]. split; [rewrite Hlog; apply indexedDocs_bulks|].
    split; [exact Hpre|]. split; [discriminate|].
    intros e' [= <-]. exact Hout.
Qed.

(** X12. A missing file, a file the reader rejects and a workbook
    without sheets each make the loader throw before any call on the
    client: the first with the path in the message, the second with what
    the reader threw. *)
Theorem loadAndIndex_source_errors {W : Type} (client : Client W) (fs : Files)
    (config : LoaderConfig) (rc : RunConfig) (w : W) :
  (fs (excelPath rc) = None ->
     loadAndIndex client fs config rc w
     = (Throw (Error (js "Excel file not found: " ++ excelPath rc)), w))
  /\ (forall e, fs (excelPath rc) = Some (Unreadable e) ->
        loadAndIndex client fs config rc w = (Throw e, w))
  /\ (fs (excelPath rc) = Some (Workbook []) ->
        loadAndIndex client fs config rc w
        = (Throw (Error (js "Workbook has no sheets")), w)).
Proof.
  unfold loadAndIndex, bind, lift, loadExcelRows.
  repeat split; intros; repeat match goal with
                         | Hfs : fs _ = _ |- _ => rewrite Hfs
                         end; reflexivity.
Qed.

End LoaderTheorems.

(* ================================================================== *)
(** * Further properties: the query builder and the handlers *)
(* ================================================================== *)

(** X13. The built query tells the query text and the mode: two requests
    give the same query only when they have the same text and the same
    mode. *)
Theorem buildEsQuery_injective (q q' : JsString) (m m' : Mode) :
  buildEsQuery q (modeName m) = buildEsQuery q' (modeName m') ->
  q = q' /\ m = m'.
Proof.
  destruct m, m'; cbn; intros Heq; inversion Heq; split; congruence.
Qed.

Lemma lookup_isDeleted_merge (stored : Doc) :
  ({[ js "isDeleted" := JBool true ]} ∪ stored) !! js "isDeleted" = Some (JBool true).
Proof.
  apply lookup_union_Some_raw. left. apply lookup_singleton_eq.
Qed.

Section MoreHandlers.
Context `{Engine} {W : Type} (client : Client W) (INDEX_NAME : JsString).

(** X14. The search handler never throws, whatever the client does: it
    answers with status 200, or with status 500 and the error
    [Search failed] with the details of what was thrown. *)
Theorem searchHandler_completes (q mode : option QueryValue) (w : W) :
  exists resp w',
    searchHandler client INDEX_NAME q mode w = (Normal resp, w')
    /\ (status resp = 200
        \/ (status resp = 500
            /\ exists details, body resp = ErrorBody (js "Search failed") (Some details))).
Proof.
  unfold searchHandler, tryCatch.
  destruct (truthy (param q "")); cbn [negb].
  - unfold bind.
    destruct (search client _ w) as [[result|e] w']; cbn; eauto 10.
  - cbn. eauto.
Qed.

(** X15. The delete handler never throws, whatever the client does: it
    answers with status 200 and [{ ok: true }], with status 400 and
    [Missing id], or with status 500 and [Delete failed] with the details
    of what was thrown. *)
Theorem deleteHandler_completes (id : option JsString) (w : W) :
  exists resp w',
    deleteHandler client INDEX_NAME id w = (Normal resp, w')
    /\ ((status resp = 200 /\ body resp = OkBody)
        \/ (status resp = 400 /\ body resp = ErrorBody (js "Missing id") None)
        \/ (status resp = 500
            /\ exists details, body resp = ErrorBody (js "Delete failed") (Some details))).
Proof.
  unfold deleteHandler, tryCatch.
  destruct (truthy (trim (default [] id))); cbn [negb].
  - unfold bind.
    destruct (update client _ w) as [[[]|e] w']; cbn; eauto 10.
  - cbn. eauto 10.
Qed.

End MoreHandlers.

Section RecordedHandlers.
Context `{Engine}.
Variable answer : SearchRequest -> SearchResponse.
Variable failure : list Call -> Call -> option Thrown.
Variable INDEX_NAME : JsString.


Lemma deleteHandler_recorded (id : option JsString) (log : list Call) :
  trim (default [] id) <> [] ->
  let r :=
    {| update_index := INDEX_NAME;
       update_id := trim (default [] id);
       update_doc := {[ js "isDeleted" := JBool true ]};
       update_refresh := true |} in
  deleteHandler (recording answer failure) INDEX_NAME id log
  = (Normal
       match failure log (CallUpdate r) with
       | None => json OkBody
       | Some e =>
           statusJson 500 (ErrorBody (js "Delete failed") (Some (errorDetails e)))
       end,
     log ++ [CallUpdate r]).
Proof.
  intros Hid r.
  assert (Htruthy : truthy (trim (default [] id)) = true)
    by (destruct (trim (default [] id)) eqn:E; [now elim Hid | reflexivity]).
  unfold deleteHandler, tryCatch, bind. rewrite Htruthy. cbn [negb].
  unfold recording. cbn [update]. subst r.
  destruct (failure log _); reflexivity.
Qed.


(** X17. For an identifier that is not empty once trimmed, the delete
    handler makes exactly one call, a partial update: on the configured
    index, of the document with the trimmed identifier, setting
    [isDeleted] to [true] and nothing else, with refresh. When the call
    succeeds the response is status 200 with [{ ok: true }]; when it
    throws, status 500 with the details of what was thrown. *)
Theorem deleteHandler_one_update (id : option JsString) (log : list Call) :
  trim (default [] id) <> [] ->
  exists r : UpdateRequest,
    snd (deleteHandler (recording answer failure) INDEX_NAME id log)
    = log ++ [CallUpdate r]
    /\ update_index r = INDEX_NAME
    /\ update_id r = trim (default [] id)
    /\ update_doc r = {[ js "isDeleted" := JBool true ]}
    /\ update_refresh r = true
    /\ fst (deleteHandler (recording answer failure) INDEX_NAME id log)
       = Normal
           match failure log (CallUpdate r) with
           | None => json OkBody
           | Some e =>
               statusJson 500 (ErrorBody (js "Delete failed") (Some (errorDetails e)))
           end.
Proof.
  intros Hid. rewrite (deleteHandler_recorded id log Hid). cbn [fst snd].
  eexists. repeat split.
Qed.

End RecordedHandlers.

Section DeleteThenSearch.
Context `{Engine}.
Variable matchText : JsString -> JsString -> option Operator -> Doc -> bool.
Variable matchPhrase : JsString -> JsString -> Doc -> bool.

(** X18. What the delete handler writes takes a document out of every
    search: a stored document merged with the partial document of the
    update the handler sends satisfies no query of the query builder,
    whatever the query text and the mode, and whatever the stored
    document was. *)
Theorem deleted_document_unmatched (answer : SearchRequest -> SearchResponse)
    (INDEX_NAME : JsString) (id : option JsString) (log : list Call) (r : UpdateRequest) :
  trim (default [] id) <> [] ->
  snd (deleteHandler (recording answer reliable) INDEX_NAME id log) = log ++ [CallUpdate r] ->
  forall (stored : Doc) (q mode : JsString),
    satisfies matchText matchPhrase (update_doc r ∪ stored) (buildEsQuery q mode) = false.
Proof.
  intros Hid Hlog stored q mode.
  rewrite (deleteHandler_recorded answer reliable INDEX_NAME id log Hid) in Hlog.
  cbn [snd] in Hlog. apply app_inv_head in Hlog. injection Hlog as <-.
  cbn [update_doc].
  destruct (buildEsQuery_shape q mode) as (primary & -> & _).
  cbn [satisfies forallb]. rewrite lookup_isDeleted_merge.
  cbn. now rewrite !andb_false_r.
Qed.

(** X19. A hit of the response has the fields of its source, and, when
    the source has no field [id] (as with the six display fields), the
    identifier of the document under [id]; a source field [id] would
    take the place of the identifier. *)
Theorem hitToJson_fields (h : Hit) :
  (forall key, key <> js "id" -> hitToJson h !! key = default ∅ (hit_source h) !! key)
  /\ (default ∅ (hit_source h) !! js "id" = None ->
      hitToJson h !! js "id" = Some (JStr (hit_id h)))
  /\ (forall v, default ∅ (hit_source h) !! js "id" = Some v ->
      hitToJson h !! js "id" = Some v).
Proof.
  unfold hitToJson. split; [|split].
  - intros key Hkey. rewrite lookup_union.
    rewrite lookup_singleton_ne by congruence.
    now destruct (default ∅ (hit_source h) !! key).
  - intros Hnone. rewrite lookup_union, Hnone, lookup_singleton_eq. reflexivity.
  - intros v Hv. rewrite lookup_union, Hv, lookup_singleton_eq. reflexivity.
Qed.

End DeleteThenSearch.

(* ================================================================== *)
(** * Further properties: the field schema *)
(* ================================================================== *)

Lemma lookupDef_elem (ps : list (JsString * FieldDef)) (name : JsString) (def : FieldDef) :
  NoDup ps.*1 -> (name, def) ∈ ps -> lookupDef ps name = Some def.
Proof.
  induction ps as [|[k d] ps IH]; intros Hnd Hin; [inversion Hin|].
  simpl in Hnd. apply NoDup_cons in Hnd as [Hk Hnd]. simpl. unfold streq.
  apply elem_of_cons in Hin as [[= <- <-]|Hin].
  - now rewrite bool_decide_eq_true_2.
  - rewrite bool_decide_eq_false_2; [now apply IH|].
    intros ->. apply Hk. apply list_elem_of_fmap. now exists (name, def).
Qed.

Lemma getFieldNames_elem (mapping : Mapping) (name : JsString) :
  name ∈ getFieldNames mapping
  <-> name <> js "allText" /\ exists ps, props mapping = Some ps /\ name ∈ ps.*1.
Proof.
  unfold getFieldNames. destruct (props mapping) as [ps|].
  - rewrite list_elem_of_In, filter_In, <- list_elem_of_In.
    unfold streq. rewrite negb_true_iff, bool_decide_eq_false.
    split.
    + intros [Hin Hne]. split; [exact Hne|]. now exists ps.
    + intros [Hne (ps' & [= <-] & Hin)]. now split.
  - split; [intros Hin; inversion Hin | intros [_ (ps & Hps & _)]; discriminate].
Qed.

Lemma filter_allText_id (names : list JsString) :
  js "allText" ∉ names ->
  List.filter (fun name => negb (streq name (js "allText"))) names = names.
Proof.
  induction names as [|k ks IH]; intros Hno; [reflexivity|].
  apply not_elem_of_cons in Hno as [Hk Hks]. simpl. unfold streq at 1.
  rewrite bool_decide_eq_false_2 by congruence. simpl. now rewrite IH.
Qed.

(** The types recorded for a list of names: each name but [__proto__]
    gets its type, and no other key is touched. *)
Lemma setType_fold (type : JsString -> JsString) (names : list JsString) (name : JsString) :
  forall init : gmap JsString JsString,
    fold_left (fun fieldTypes n => setType fieldTypes n (type n)) names init !! name
    = if bool_decide (name ∈ names /\ name <> js "__proto__")
      then Some (type name) else init !! name.
Proof.
  induction names as [|n names IH]; intros init; cbn [fold_left].
  - rewrite bool_decide_eq_false_2; [reflexivity|].
    intros [Hin _]. inversion Hin.
  - rewrite IH. unfold setType, streq.
    destruct (decide (name ∈ names /\ name <> js "__proto__")) as [Hin|Hin].
    + rewrite !bool_decide_eq_true_2; [reflexivity | | exact Hin].
      destruct Hin as [Hin Hne]. split; [now right | exact Hne].
    + rewrite (bool_decide_eq_false_2 _ Hin).
      destruct (decide (name = n)) as [->|Hne].
      * destruct (decide (n = js "__proto__")) as [Hp|Hp].
        -- rewrite (bool_decide_eq_true_2 _ Hp).
           rewrite bool_decide_eq_false_2; [reflexivity|]. now intros [_ ?].
        -- rewrite (bool_decide_eq_false_2 _ Hp), lookup_insert_eq.
           rewrite bool_decide_eq_true_2; [reflexivity|]. split; [now left | exact Hp].
      * assert (Hother : (if bool_decide (n = js "__proto__") then init
                          else <[n := type n]> init) !! name = init !! name).
        { destruct (bool_decide (n = js "__proto__")); [reflexivity|].
          now apply lookup_insert_ne. }
        rewrite Hother. rewrite bool_decide_eq_false_2; [reflexivity|].
        intros [Hin' Hp]. apply Hin. split; [|exact Hp].
        apply elem_of_cons in Hin' as [?|?]; [contradiction | assumption].
Qed.

(** X20. When [buildLoaderConfig] returns a configuration, its field
    list is not empty and never has [allText]; every property of the
    mapping other than [allText] is a field, with the type the mapping
    declares for it, or "text" when it declares none; nothing else has a
    type; and the defaults are those of the mapping. When no property is
    named [allText], the fields are the properties, in their order. *)
Theorem buildLoaderConfig_schema (mapping : Mapping) (config : LoaderConfig) :
  buildLoaderConfig mapping = Normal config ->
  fieldNames config <> []
  /\ (js "allText" ∉ fieldNames config)
  /\ (forall ps name def,
        props mapping = Some ps -> NoDup ps.*1 -> (name, def) ∈ ps ->
        name <> js "allText" ->
        name ∈ fieldNames config
        /\ (name <> js "__proto__" ->
            fieldTypes config !! name = Some (default (js "text") (def_type def))))
  /\ (forall name, is_Some (fieldTypes config !! name) -> name ∈ fieldNames config)
  /\ (forall ps, props mapping = Some ps -> js "allText" ∉ ps.*1 ->
        fieldNames config = ps.*1)
  /\ defaults config = getDefaults mapping.
Proof.
  unfold buildLoaderConfig.
  destruct (length (getFieldNames mapping) =? 0)%nat eqn:Hlen; [discriminate|].
  intros [= <-]. cbn [fieldNames fieldTypes defaults].
  apply Nat.eqb_neq in Hlen.
  split; [now destruct (getFieldNames mapping)|].
  split; [rewrite getFieldNames_elem; now intros [? _]|].
  split; [|split; [|split; [|reflexivity]]].
  - intros ps name def Hps Hnd Hin Hne.
    assert (Hfield : name ∈ getFieldNames mapping).
    { apply getFieldNames_elem. split; [exact Hne|]. exists ps. split; [exact Hps|].
      apply list_elem_of_fmap. now exists (name, def). }
    split; [exact Hfield|]. intros Hp.
    rewrite setType_fold, bool_decide_eq_true_2 by now split.
    unfold getFieldType. now rewrite Hps, (lookupDef_elem ps name def Hnd Hin).
  - intros name. rewrite setType_fold. case_bool_decide as Hin.
    + intros _. exact (proj1 Hin).
    + rewrite lookup_empty. now intros [? ?].
  - intros ps Hps Hno. unfold getFieldNames. rewrite Hps.
    exact (filter_allText_id (ps.*1) Hno).
Qed.

(** X21. [buildLoaderConfig] throws exactly when the mapping has no
    property other than [allText] (no [mappings], no [properties], none
    at all, or [allText] alone), and then with the error
    [No indexable fields in mapping]. *)
Theorem buildLoaderConfig_no_fields (mapping : Mapping) :
  ((exists e, buildLoaderConfig mapping = Throw e)
   <-> forall ps name, props mapping = Some ps -> name ∈ ps.*1 -> name = js "allText")
  /\ (forall e, buildLoaderConfig mapping = Throw e ->
        e = Error (js "No indexable fields in mapping")).
Proof.
  unfold buildLoaderConfig.
  destruct (getFieldNames mapping) as [|n names] eqn:Hnames; cbn [length Nat.eqb].
  - split; [|now intros e [= <-]]. split; [|eauto].
    intros _ ps name Hps Hin.
    destruct (decide (name = js "allText")) as [Heq|Hne]; [exact Heq|].
    assert (Hfield : name ∈ getFieldNames mapping)
      by (apply getFieldNames_elem; eauto).
    rewrite Hnames in Hfield. inversion Hfield.
  - split; [|discriminate]. split; [intros [e He]; discriminate|].
    intros Hall. exfalso.
    assert (Hfield : n ∈ getFieldNames mapping) by (rewrite Hnames; now left).
    apply getFieldNames_elem in Hfield as [Hne (ps & Hps & Hin)].
    exact (Hne (Hall ps n Hps Hin)).
Qed.

(* ================================================================== *)
(** * Further properties: index provisioning and the whole run *)
(* ================================================================== *)

(** X22. Provisioning first asks whether the index exists. If it does,
    nothing else is done; if it does not, the index is created once, with
    the [mappings] of the mapping and its other top-level keys, under the
    configured name unless the mapping has a top-level [index] of its
    own. *)
Theorem ensureIndex_calls (existing : JsString -> bool) (mapping : Mapping)
    (idx : JsString) (log : list BackendCall) :
  exists r : CreateRequest,
    ensureIndex (loggingIndices existing) mapping idx log
    = (Normal tt,
       log ++ OnIndices (CallExists idx)
           :: (if existing idx then [] else [OnIndices (CallCreate r)]))
    /\ create_mappings r = mappings mapping
    /\ (forall key, key <> js "index" -> create_params r !! key = otherKeys mapping !! key)
    /\ (otherKeys mapping !! js "index" = None ->
        create_params r !! js "index" = Some (JStr idx))
    /\ (forall v, otherKeys mapping !! js "index" = Some v ->
        create_params r !! js "index" = Some v).
Proof.
  exists {| create_mappings := mappings mapping;
            create_params := otherKeys mapping ∪ {[ js "index" := JStr idx ]} |}.
  split; [|split; [reflexivity|]].
  - unfold ensureIndex, bind, loggingIndices. cbn [indices_exists indices_create].
    destruct (existing idx); cbn [negb]; unfold ret; [reflexivity|].
    now rewrite <- app_assoc.
  - cbn [create_params]. split; [|split].
    + intros key Hkey. rewrite lookup_union, lookup_singleton_ne by congruence.
      now destruct (otherKeys mapping !! key).
    + intros Hnone. now rewrite lookup_union, Hnone, lookup_singleton_eq.
    + intros v Hv. now rewrite lookup_union, Hv, lookup_singleton_eq.
Qed.

Section RunProperties.
Context `{Engine} {W : Type} (indices : IndicesClient W) (client : Client W).

(** Every row that is not discarded counts once, for any client whose
    bulk calls succeed. *)
Lemma indexRows_count_kept (config : LoaderConfig) (rc : RunConfig)
    (rows : list (list JsValue)) (results : list (option Doc)) :
  bulkSucceeds client ->
  rowResults config rows results ->
  forall (batch : list Doc) (indexed : nat) (w : W),
  exists w', indexRows client config rc rows batch indexed w
             = (Normal (indexed + length batch + length (kept results))%nat, w').
Proof.
  intros Hbulk.
  induction 1 as [|row r rows results Hrow _ IH]; intros batch indexed w.
  - cbn [indexRows]. unfold bind.
    destruct (flushBatch_succeeds client Hbulk batch (indexName rc) w) as [w' ->].
    exists w'. unfold ret, kept. simpl. now rewrite Nat.add_0_r.
  - cbn [indexRows]. unfold bind at 1, lift. rewrite Hrow.
    destruct r as [d|]; [|apply IH].
    replace (length (kept (Some d :: results))) with (S (length (kept results)))
      by reflexivity.
    destruct (batchSize rc <=? Z.of_nat (length (batch ++ [d]))).
    + unfold bind.
      destruct (flushBatch_succeeds client Hbulk (batch ++ [d]) (indexName rc) w)
        as [w1 ->].
      destruct (IH [] (indexed + length (batch ++ [d]))%nat w1) as [w' ->].
      exists w'. do 2 f_equal. rewrite length_app. simpl. lia.
    + destruct (IH (batch ++ [d]) indexed w) as [w' ->].
      exists w'. do 2 f_equal. rewrite length_app. simpl. lia.
Qed.

(** X23. A run whose mapping file cannot be read or parsed throws what
    the read threw, before any call on the backend. A run whose mapping
    has no indexable field throws [No indexable fields in mapping] after
    the index was provisioned and before the source is read or any
    document is sent: the backend is as provisioning left it. A run whose
    provisioning throws stops there. *)
Theorem runLoader_errors (rc : RunConfig) (mfs : MappingFiles) (fs : Files) (w : W) :
  (forall e, mfs (mappingPath rc) = Throw e ->
     runLoader rc mfs fs indices client w = (Throw e, w))
  /\ (forall mapping w1,
        mfs (mappingPath rc) = Normal mapping ->
        ensureIndex indices mapping (indexName rc) w = (Normal tt, w1) ->
        getFieldNames mapping = [] ->
        runLoader rc mfs fs indices client w
        = (Throw (Error (js "No indexable fields in mapping")), w1))
  /\ (forall mapping e w1,
        mfs (mappingPath rc) = Normal mapping ->
        ensureIndex indices mapping (indexName rc) w = (Throw e, w1) ->
        runLoader rc mfs fs indices client w = (Throw e, w1)).
Proof.
  unfold runLoader, loadMapping. split; [|split].
  - intros e Hm. unfold bind at 1, lift. now rewrite Hm.
  - intros mapping w1 Hm Hensure Hnames.
    unfold bind at 1, lift. rewrite Hm.
    unfold bind at 1. rewrite Hensure.
    unfold bind at 1, lift, buildLoaderConfig. now rewrite Hnames.
  - intros mapping e w1 Hm Hensure.
    unfold bind at 1, lift. rewrite Hm.
    unfold bind at 1. now rewrite Hensure.
Qed.

(** X24. A run with a readable mapping that has indexable fields, a
    provisioning that succeeds, a sheet with rows after the header of
    which none makes the mapper throw, and bulk calls that succeed,
    returns the number of rows that were not discarded together with the
    configured index name. *)
Theorem runLoader_result (rc : RunConfig) (mfs : MappingFiles) (fs : Files)
    (mapping : Mapping) (config : LoaderConfig)
    (header : list JsValue) (rows : list (list JsValue))
    (others : list (list (list JsValue))) (results : list (option Doc)) (w w1 : W) :
  mfs (mappingPath rc) = Normal mapping ->
  ensureIndex indices mapping (indexName rc) w = (Normal tt, w1) ->
  buildLoaderConfig mapping = Normal config ->
  fs (excelPath rc) = Some (Workbook ((header :: rows) :: others)) ->
  rows <> [] ->
  rowResults config rows results ->
  bulkSucceeds client ->
  exists w',
    runLoader rc mfs fs indices client w
    = (Normal {| result_indexed := length (kept results);
                 result_indexName := indexName rc |}, w').
Proof.
  intros Hm Hensure Hconfig Hfs Hrows Hres Hbulk.
  unfold runLoader, loadMapping.
  unfold bind at 1, lift. rewrite Hm.
  unfold bind at 1. rewrite Hensure.
  unfold bind at 1, lift. rewrite Hconfig.
  unfold bind at 1, loadAndIndex, bind, lift.
  rewrite (loadExcelRows_data fs _ header rows others Hfs Hrows).
  destruct (indexRows_count_kept config rc rows results Hbulk Hres [] 0%nat w1)
    as [w' ->].
  exists w'. reflexivity.
Qed.

End RunProperties.

(* ================================================================== *)
(** * Further properties: from the loader to the search *)
(* ================================================================== *)

Lemma isDeleted_not_inherited : js "isDeleted" ∉ objectPrototypeNames.
Proof. apply (proj1 (bool_decide_eq_false _)). vm_compute. reflexivity. Qed.

Section LoadThenSearch.
Context `{Engine}.
Variable matchText : JsString -> JsString -> option Operator -> Doc -> bool.
Variable matchPhrase : JsString -> JsString -> Doc -> bool.

(** X25. With the default [isDeleted: false] among defaults of distinct
    keys, and no field named [isDeleted], every document the mapper
    returns passes the filter of the query builder: it satisfies a built
    query exactly when it satisfies its primary clause. *)
Theorem loaded_document_searchable (row : list JsValue) (names : list JsString)
    (types : gmap JsString JsString) (entries : list (JsString * Json)) (d : Doc) :
  NoDup entries.*1 -> (js "isDeleted", JBool false) ∈ entries ->
  js "isDeleted" ∉ names ->
  rowToDoc row names types entries = Normal (Some d) ->
  forall q mode : JsString,
  exists primary,
    buildEsQuery q mode = BoolQuery [primary] [Term (js "isDeleted") (JBool false)]
    /\ satisfies matchText matchPhrase d (buildEsQuery q mode)
       = satisfies matchText matchPhrase d primary.
Proof.
  intros Hnd Hin Hno Hdoc q mode.
  destruct (rowToDoc_inv _ _ _ _ _ Hdoc) as (filled & Hfill & Hr).
  assert (Hd : d !! js "isDeleted" = Some (JBool false)).
  { destruct (bool_decide (0 < size (applyDefaults entries filled))%nat); [|discriminate].
    injection Hr as ->.
    apply (applyDefaults_fill entries _ _ Hnd Hin isDeleted_not_inherited).
    rewrite (fillFields_other _ _ _ _ Hno _ _ _ Hfill). apply lookup_empty. }
  destruct (buildEsQuery_shape q mode) as (primary & Hq & _).
  exists primary. split; [exact Hq|]. rewrite Hq.
  cbn [satisfies forallb]. rewrite Hd. cbn. now rewrite !andb_true_r.
Qed.

End LoadThenSearch.

(* ================================================================== *)
(** * The further properties at the sample inputs *)
(* ================================================================== *)

Ltac by_compute := apply (bool_decide_unpack _); vm_compute; exact I.

Lemma textType_text : textType (Some (js "text")).
Proof. vm_compute. reflexivity. Defined.

Lemma coerce_text_stored_witness :
  textType (Some (js "text"))
  /\ (blank (js " Herzl ")
      <-> @coerce referenceEngine (VStr (js " Herzl ")) (Some (js "text")) = Normal None)
  /\ (~ blank (js " Herzl ") ->
      @coerce referenceEngine (VStr (js " Herzl ")) (Some (js "text"))
      = Normal (Some (JStr (trim (js " Herzl "))))).
Proof.
  split; [exact textType_text|].
  exact (proj2 (@coerce_text_stored referenceEngine (Some (js "text")) textType_text)
           (js " Herzl ")).
Defined.

Lemma coerce_boolean_present_witness :
  absent (VStr (js "Yes")) = false
  /\ exists b, @coerce referenceEngine (VStr (js "Yes")) (Some (js "boolean"))
               = Normal (Some (JBool b))
               /\ (forall b', VStr (js "Yes") = VBool b' -> b = b').
Proof.
  split; [reflexivity|].
  exact (@coerce_boolean_present referenceEngine (VStr (js "Yes")) eq_refl).
Defined.

Lemma cells_sample : Forall isCellValue [VStr (js "Herzl"); VNull; VBool true].
Proof. repeat constructor. Defined.

Lemma rowToDoc_never_throws_witness :
  Forall isCellValue [VStr (js "Herzl"); VNull; VBool true]
  /\ exists r, @rowToDoc referenceEngine [VStr (js "Herzl"); VNull; VBool true]
                 (fieldNames sampleConfig) (fieldTypes sampleConfig)
                 (defaults sampleConfig) = Normal r.
Proof.
  split; [exact cells_sample|].
  exact (@rowToDoc_never_throws referenceEngine _ (fieldNames sampleConfig)
           (fieldTypes sampleConfig) (defaults sampleConfig) cells_sample).
Defined.

Lemma rowToDoc_herzl :
  @rowToDoc referenceEngine herzlRow (fieldNames sampleConfig) (fieldTypes sampleConfig)
    (defaults sampleConfig) = Normal (Some herzlDoc).
Proof. vm_compute. reflexivity. Defined.

Lemma rowToDoc_fields_witness :
  @rowToDoc referenceEngine herzlRow (fieldNames sampleConfig) (fieldTypes sampleConfig)
    (defaults sampleConfig) = Normal (Some herzlDoc)
  /\ herzlDoc <> ∅
  /\ forall key, is_Some (herzlDoc !! key) ->
       key ∈ fieldNames sampleConfig \/ key ∈ (defaults sampleConfig).*1.
Proof.
  split; [exact rowToDoc_herzl|].
  exact (@rowToDoc_fields referenceEngine _ _ _ _ _ rowToDoc_herzl).
Defined.

Lemma names_distinct : NoDup (fieldNames sampleConfig).
Proof. by_compute. Defined.

Lemma rowToDoc_field_value_witness :
  NoDup (fieldNames sampleConfig)
  /\ fieldNames sampleConfig !! 1%nat = Some (js "code")
  /\ js "code" <> js "__proto__"
  /\ (forall v,
        @coerce referenceEngine (cell herzlRow 1) (fieldTypes sampleConfig !! js "code")
        = Normal (Some v) ->
        exists d, Some herzlDoc = Some d /\ d !! js "code" = Some v).
Proof.
  split; [exact names_distinct|]. split; [reflexivity|]. split; [discriminate|].
  exact (proj1 (@rowToDoc_field_value referenceEngine herzlRow (fieldNames sampleConfig)
                  (fieldTypes sampleConfig) (defaults sampleConfig) 1%nat (js "code")
                  (Some herzlDoc) names_distinct eq_refl ltac:(discriminate)
                  rowToDoc_herzl)).
Defined.

Lemma defaults_distinct : NoDup (defaults sampleConfig).*1.
Proof. by_compute. Defined.

Lemma isDeleted_default : (js "isDeleted", JBool false) ∈ defaults sampleConfig.
Proof. left. Defined.

Lemma isDeleted_no_field : js "isDeleted" ∉ fieldNames sampleConfig.
Proof. by_compute. Defined.

Lemma rowToDoc_default_value_witness :
  NoDup (defaults sampleConfig).*1
  /\ (js "isDeleted", JBool false) ∈ defaults sampleConfig
  /\ (js "isDeleted" ∉ fieldNames sampleConfig)
  /\ (js "isDeleted" ∉ objectPrototypeNames)
  /\ exists d, Some herzlDoc = Some d /\ d !! js "isDeleted" = Some (JBool false).
Proof.
  split; [exact defaults_distinct|]. split; [exact isDeleted_default|].
  split; [exact isDeleted_no_field|]. split; [exact isDeleted_not_inherited|].
  exact (@rowToDoc_default_value referenceEngine herzlRow (fieldNames sampleConfig)
           (fieldTypes sampleConfig) (defaults sampleConfig) (js "isDeleted") (JBool false)
           (Some herzlDoc) defaults_distinct isDeleted_default isDeleted_no_field
           isDeleted_not_inherited rowToDoc_herzl).
Defined.

Lemma cells_agree :
  forall j : nat, (j < length (fieldNames sampleConfig))%nat ->
    cell (herzlRow ++ [VStr (js "a note")]) j = cell herzlRow j.
Proof.
  intros j Hj. simpl in Hj. destruct j as [|[|j]]; [reflexivity | reflexivity | lia].
Defined.

Lemma rowToDoc_cells_witness :
  (forall j : nat, (j < length (fieldNames sampleConfig))%nat ->
     cell (herzlRow ++ [VStr (js "a note")]) j = cell herzlRow j)
  /\ @rowToDoc referenceEngine (herzlRow ++ [VStr (js "a note")])
       (fieldNames sampleConfig) (fieldTypes sampleConfig) (defaults sampleConfig)
     = @rowToDoc referenceEngine herzlRow
         (fieldNames sampleConfig) (fieldTypes sampleConfig) (defaults sampleConfig).
Proof.
  split; [exact cells_agree|].
  exact (proj1 (@rowToDoc_cells referenceEngine (fieldNames sampleConfig)
                  (fieldTypes sampleConfig) (defaults sampleConfig))
           _ _ cells_agree).
Defined.

Lemma loaded_document_searchable_witness :
  NoDup (defaults sampleConfig).*1
  /\ (js "isDeleted", JBool false) ∈ defaults sampleConfig
  /\ (js "isDeleted" ∉ fieldNames sampleConfig)
  /\ exists primary,
       buildEsQuery (js "Herzl") (js "any")
       = BoolQuery [primary] [Term (js "isDeleted") (JBool false)]
       /\ satisfies (fun _ _ _ _ => true) (fun _ _ _ => true) herzlDoc
            (buildEsQuery (js "Herzl") (js "any"))
          = satisfies (fun _ _ _ _ => true) (fun _ _ _ => true) herzlDoc primary.
Proof.
  split; [exact defaults_distinct|]. split; [exact isDeleted_default|].
  split; [exact isDeleted_no_field|].
  exact (@loaded_document_searchable referenceEngine (fun _ _ _ _ => true)
           (fun _ _ _ => true) herzlRow (fieldNames sampleConfig) (fieldTypes sampleConfig)
           (defaults sampleConfig) herzlDoc defaults_distinct isDeleted_default
           isDeleted_no_field rowToDoc_herzl (js "Herzl") (js "any")).
Defined.

Lemma sampleDocs_not_empty : sampleDocs <> [].
Proof. discriminate. Defined.

Lemma flushBatch_request_witness :
  sampleDocs <> []
  /\ flushBatch sampleClient sampleDocs (js "streets") []
     = bulk sampleClient (batchRequest (js "streets") sampleDocs) []
  /\ bulk_refresh (batchRequest (js "streets") sampleDocs) = false
  /\ length (operations (batchRequest (js "streets") sampleDocs))
     = (2 * length sampleDocs)%nat.
Proof.
  split; [exact sampleDocs_not_empty|].
  destruct (proj2 (flushBatch_request sampleClient (js "streets") [])
              sampleDocs sampleDocs_not_empty) as (Hcall & Hrefresh & Hlen & _).
  exact (conj Hcall (conj Hrefresh Hlen)).
Defined.

Lemma sparse_sheet :
  sampleFiles (sampleHeader :: sparseRows) (excelPath sampleRun)
  = Some (Workbook ((sampleHeader :: sparseRows) :: [])).
Proof. reflexivity. Defined.

Lemma sparse_results : @rowResults referenceEngine plainConfig sparseRows sparseResults.
Proof. repeat constructor; vm_compute; reflexivity. Defined.

Lemma loadAndIndex_discards_witness :
  sparseRows <> []
  /\ @rowResults referenceEngine plainConfig sparseRows sparseResults
  /\ exists log',
       @loadAndIndex referenceEngine _ (recording noHits reliable)
         (sampleFiles (sampleHeader :: sparseRows)) plainConfig sampleRun []
       = (Normal (length (kept sparseResults)), log')
       /\ indexedDocs log' = indexedDocs [] ++ kept sparseResults
       /\ Forall (fun d : Doc => d <> ∅) (kept sparseResults).
Proof.
  split; [discriminate|]. split; [exact sparse_results|].
  exact (@loadAndIndex_discards referenceEngine
           (sampleFiles (sampleHeader :: sparseRows)) plainConfig sampleRun
           sampleHeader sparseRows [] sparseResults noHits []
           sparse_sheet ltac:(discriminate) sparse_results).
Defined.

Lemma sample_sheet :
  sampleFiles (sampleHeader :: sampleRows) (excelPath sampleRun)
  = Some (Workbook ((sampleHeader :: sampleRows) :: [])).
Proof. reflexivity. Defined.

Lemma sample_results :
  @rowResults referenceEngine sampleConfig sampleRows (List.map Some sampleDocs).
Proof. repeat constructor; vm_compute; reflexivity. Defined.

Lemma loadAndIndex_batches_witness :
  sampleRows <> []
  /\ 1 <= batchSize sampleRun
  /\ exists reqs,
       bulkCalls (snd (@loadAndIndex referenceEngine _ (recording noHits reliable)
                         (sampleFiles (sampleHeader :: sampleRows)) sampleConfig sampleRun []))
       = bulkCalls [] ++ reqs
       /\ Forall (fun r => 1 <= Z.of_nat (docCount r) <= batchSize sampleRun) reqs
       /\ Forall (fun r => Z.of_nat (docCount r) = batchSize sampleRun) (removelast reqs)
       /\ Forall (fun r => exists docs, r = batchRequest (indexName sampleRun) docs) reqs.
Proof.
  split; [discriminate|]. split; [simpl; lia|].
  exact (@loadAndIndex_batches referenceEngine
           (sampleFiles (sampleHeader :: sampleRows)) sampleConfig sampleRun
           sampleHeader sampleRows [] (List.map Some sampleDocs) noHits reliable []
           sample_sheet ltac:(discriminate) sample_results ltac:(simpl; lia)).
Defined.

Lemma loadAndIndex_bulk_failure_witness :
  sampleRows <> []
  /\ exists (reqs : list BulkRequest) (sent : list Doc),
       snd (@loadAndIndex referenceEngine _ (recording noHits failAfterFirst)
              (sampleFiles (sampleHeader :: sampleRows)) sampleConfig sampleRun [])
       = [] ++ List.map CallBulk reqs
       /\ indexedDocs (snd (@loadAndIndex referenceEngine _ (recording noHits failAfterFirst)
                              (sampleFiles (sampleHeader :: sampleRows)) sampleConfig
                              sampleRun []))
          = indexedDocs [] ++ sent
       /\ sent `prefix_of` kept (List.map Some sampleDocs)
       /\ (forall n,
             fst (@loadAndIndex referenceEngine _ (recording noHits failAfterFirst)
                    (sampleFiles (sampleHeader :: sampleRows)) sampleConfig sampleRun [])
             = Normal n ->
             n = length (kept (List.map Some sampleDocs))
             /\ sent = kept (List.map Some sampleDocs))
       /\ (forall e,
             fst (@loadAndIndex referenceEngine _ (recording noHits failAfterFirst)
                    (sampleFiles (sampleHeader :: sampleRows)) sampleConfig sampleRun [])
             = Throw e ->
             exists l r,
               snd (@loadAndIndex referenceEngine _ (recording noHits failAfterFirst)
                      (sampleFiles (sampleHeader :: sampleRows)) sampleConfig sampleRun [])
               = l ++ [CallBulk r]
               /\ failAfterFirst l (CallBulk r) = Some e).
Proof.
  split; [discriminate|].
  exact (@loadAndIndex_bulk_failure referenceEngine
           (sampleFiles (sampleHeader :: sampleRows)) sampleConfig sampleRun
           sampleHeader sampleRows [] (List.map Some sampleDocs) noHits failAfterFirst []
           sample_sheet ltac:(discriminate) sample_results).
Defined.

(** The second bulk call of that run is the one that fails. *)
Example loadAndIndex_second_batch_fails :
  fst (@loadAndIndex referenceEngine _ (recording noHits failAfterFirst)
         (sampleFiles (sampleHeader :: sampleRows)) sampleConfig sampleRun [])
  = Throw (Error (js "bulk rejected"))
  /\ List.map docCount
       (bulkCalls (snd (@loadAndIndex referenceEngine _ (recording noHits failAfterFirst)
                          (sampleFiles (sampleHeader :: sampleRows)) sampleConfig
                          sampleRun [])))
     = [2%nat; 1%nat].
Proof. split; vm_compute; reflexivity. Qed.

Lemma loadAndIndex_source_errors_witness :
  (fun _ : JsString => @None ExcelFile) (excelPath sampleRun) = None
  /\ @loadAndIndex referenceEngine _ sampleClient (fun _ => None) sampleConfig sampleRun []
     = (Throw (Error (js "Excel file not found: " ++ excelPath sampleRun)), []).
Proof.
  split; [reflexivity|].
  exact (proj1 (@loadAndIndex_source_errors referenceEngine _ sampleClient (fun _ => None)
                  sampleConfig sampleRun []) eq_refl).
Defined.

Lemma buildEsQuery_injective_witness :
  buildEsQuery (js "Herzl") (modeName Any) = buildEsQuery (js "Herzl") (modeName Any)
  /\ js "Herzl" = js "Herzl" /\ Any = Any.
Proof.
  split; [reflexivity|].
  exact (buildEsQuery_injective (js "Herzl") (js "Herzl") Any Any eq_refl).
Defined.



Lemma id_not_empty : trim (default [] (Some (js " Ab3xY "))) <> [].
Proof. by_compute. Defined.

Lemma deleteHandler_one_update_witness :
  trim (default [] (Some (js " Ab3xY "))) <> []
  /\ exists r : UpdateRequest,
       snd (@deleteHandler referenceEngine _ (recording noHits reliable) (js "streets")
              (Some (js " Ab3xY ")) [])
       = [] ++ [CallUpdate r]
       /\ update_index r = js "streets"
       /\ update_id r = trim (default [] (Some (js " Ab3xY ")))
       /\ update_doc r = {[ js "isDeleted" := JBool true ]}
       /\ update_refresh r = true
       /\ fst (@deleteHandler referenceEngine _ (recording noHits reliable) (js "streets")
                 (Some (js " Ab3xY ")) [])
          = Normal
              match reliable [] (CallUpdate r) with
              | None => json OkBody
              | Some e =>
                  statusJson 500 (ErrorBody (js "Delete failed") (Some (@errorDetails referenceEngine e)))
              end.
Proof.
  split; [exact id_not_empty|].
  exact (@deleteHandler_one_update referenceEngine noHits reliable (js "streets")
           (Some (js " Ab3xY ")) [] id_not_empty).
Defined.

Lemma herzl_update_sent :
  snd (@deleteHandler referenceEngine _ (recording noHits reliable) (js "streets")
         (Some (js " Ab3xY ")) [])
  = [] ++ [CallUpdate herzlUpdate].
Proof. vm_compute. reflexivity. Defined.

Lemma deleted_document_unmatched_witness :
  trim (default [] (Some (js " Ab3xY "))) <> []
  /\ snd (@deleteHandler referenceEngine _ (recording noHits reliable) (js "streets")
            (Some (js " Ab3xY ")) [])
     = [] ++ [CallUpdate herzlUpdate]
  /\ satisfies (fun _ _ _ _ => true) (fun _ _ _ => true)
       (update_doc herzlUpdate ∪ herzlDoc) (buildEsQuery (js "Herzl") (js "free"))
     = false.
Proof.
  split; [exact id_not_empty|]. split; [exact herzl_update_sent|].
  exact (@deleted_document_unmatched referenceEngine (fun _ _ _ _ => true)
           (fun _ _ _ => true) noHits (js "streets") (Some (js " Ab3xY ")) []
           herzlUpdate id_not_empty herzl_update_sent herzlDoc (js "Herzl") (js "free")).
Defined.

Lemma herzlHit_no_id : default ∅ (hit_source herzlHit) !! js "id" = None.
Proof. vm_compute. reflexivity. Defined.

Lemma hitToJson_fields_witness :
  default ∅ (hit_source herzlHit) !! js "id" = None
  /\ hitToJson herzlHit !! js "id" = Some (JStr (hit_id herzlHit)).
Proof.
  split; [exact herzlHit_no_id|].
  exact (proj1 (proj2 (hitToJson_fields herzlHit)) herzlHit_no_id).
Defined.

Lemma sampleMapping_config : buildLoaderConfig sampleMapping = Normal mappedConfig.
Proof. vm_compute. reflexivity. Defined.

Lemma buildLoaderConfig_schema_witness :
  buildLoaderConfig sampleMapping = Normal mappedConfig
  /\ fieldNames mappedConfig <> []
  /\ (js "allText" ∉ fieldNames mappedConfig)
  /\ defaults mappedConfig = getDefaults sampleMapping.
Proof.
  split; [exact sampleMapping_config|].
  destruct (buildLoaderConfig_schema sampleMapping mappedConfig sampleMapping_config)
    as (Hne & Hall & _ & _ & _ & Hdef).
  exact (conj Hne (conj Hall Hdef)).
Defined.

Lemma bareMapping_properties :
  forall ps name, props bareMapping = Some ps -> name ∈ ps.*1 -> name = js "allText".
Proof.
  intros ps name [= <-] Hin. simpl in Hin.
  apply list_elem_of_singleton in Hin. exact Hin.
Defined.

Lemma buildLoaderConfig_no_fields_witness :
  (forall ps name, props bareMapping = Some ps -> name ∈ ps.*1 -> name = js "allText")
  /\ exists e, buildLoaderConfig bareMapping = Throw e.
Proof.
  split; [exact bareMapping_properties|].
  exact (proj2 (proj1 (buildLoaderConfig_no_fields bareMapping)) bareMapping_properties).
Defined.

Lemma ensureIndex_calls_witness :
  exists r : CreateRequest,
    ensureIndex (loggingIndices (fun _ => false)) sampleMapping (js "streets") []
    = (Normal tt, [OnIndices (CallExists (js "streets")); OnIndices (CallCreate r)])
    /\ create_mappings r = mappings sampleMapping
    /\ create_params r !! js "index" = Some (JStr (js "streets"))
    /\ create_params r !! js "settings" = otherKeys sampleMapping !! js "settings".
Proof.
  destruct (ensureIndex_calls (fun _ => false) sampleMapping (js "streets") [])
    as (r & Hrun & Hmappings & Hother & Hindex & _).
  exists r. split; [exact Hrun|]. split; [exact Hmappings|].
  split; [apply Hindex; vm_compute; reflexivity | apply Hother; discriminate].
Defined.

Lemma bare_ensured :
  ensureIndex (loggingIndices (fun _ => true)) bareMapping (indexName sampleRun) []
  = (Normal tt, [OnIndices (CallExists (js "streets"))]).
Proof. reflexivity. Defined.

Lemma runLoader_errors_witness :
  sampleMappingFiles bareMapping (mappingPath sampleRun) = Normal bareMapping
  /\ getFieldNames bareMapping = []
  /\ @runLoader referenceEngine _ sampleRun (sampleMappingFiles bareMapping)
       (sampleFiles (sampleHeader :: sampleRows))
       (loggingIndices (fun _ => true)) (loggingClient noHits) []
     = (Throw (Error (js "No indexable fields in mapping")),
        [OnIndices (CallExists (js "streets"))]).
Proof.
  split; [reflexivity|]. split; [reflexivity|].
  exact (proj1 (proj2 (@runLoader_errors referenceEngine _
                         (loggingIndices (fun _ => true)) (loggingClient noHits)
                         sampleRun (sampleMappingFiles bareMapping)
                         (sampleFiles (sampleHeader :: sampleRows)) []))
           bareMapping _ eq_refl bare_ensured eq_refl).
Defined.

Lemma mapped_results :
  @rowResults referenceEngine mappedConfig sampleRows (List.map Some sampleDocs).
Proof. repeat constructor; vm_compute; reflexivity. Defined.

Lemma logging_bulk_succeeds : bulkSucceeds (loggingClient noHits).
Proof. intros r w. eexists. reflexivity. Defined.

Lemma sample_ensured :
  ensureIndex (loggingIndices (fun _ => true)) sampleMapping (indexName sampleRun) []
  = (Normal tt, [OnIndices (CallExists (js "streets"))]).
Proof. reflexivity. Defined.

Lemma runLoader_result_witness :
  sampleRows <> []
  /\ bulkSucceeds (loggingClient noHits)
  /\ exists log',
       @runLoader referenceEngine _ sampleRun (sampleMappingFiles sampleMapping)
         (sampleFiles (sampleHeader :: sampleRows))
         (loggingIndices (fun _ => true)) (loggingClient noHits) []
       = (Normal {| result_indexed := length (kept (List.map Some sampleDocs));
                    result_indexName := indexName sampleRun |}, log').
Proof.
  split; [discriminate|]. split; [exact logging_bulk_succeeds|].
  exact (@runLoader_result referenceEngine _
           (loggingIndices (fun _ => true)) (loggingClient noHits)
           sampleRun (sampleMappingFiles sampleMapping)
           (sampleFiles (sampleHeader :: sampleRows)) sampleMapping mappedConfig
           sampleHeader sampleRows [] (List.map Some sampleDocs) [] _
           eq_refl sample_ensured sampleMapping_config sample_sheet
           ltac:(discriminate) mapped_results logging_bulk_succeeds).
Defined.
